(** * The VME bus driver (src/devices/bus/vme/vme.cpp)

    A shallow embedding of the bus, slot and card-interface code of
    vme.cpp, and the properties of its address installation, start-up
    and card attachment protocol.

    Objects live in a heap indexed by object identity; a C++ pointer is
    an [option ptr] ([None] is the null pointer, and also a pointer member
    the constructor leaves unset).  Member functions take [this] first and
    run in a state monad over the machine whose results are: normal
    return, a thrown exception (the state reached at the throw is kept),
    or undefined behaviour. *)

From stdpp Require Import base option numbers strings list gmap fin_maps.

Local Open Scope Z_scope.
Local Open Scope string_scope.

(** ** Data model *)

Definition ptr := positive.
Definition offs_t := Z.

(** [vme_amod_t] is an enumeration of vme.h; its values are address
    modifier codes. *)
Definition vme_amod_t := Z.

(** The three enumerators vme.cpp names.  vme.h, which gives them their
    values, is a header of its own: they are taken as parameters. *)
Class vme_amod_enum := {
  A16_SC : vme_amod_t;
  A24_SC : vme_amod_t;
  A32_SC : vme_amod_t
}.

(** A bound member function: read8_delegate, write8_delegate and their
    16 and 32 bit relatives are kept apart by [handler_pair] below. *)
Record delegate := Delegate {
  delegate_name : string;
  delegate_object : ptr
}.

(** The three shapes [install_device] is overloaded on. *)
Inductive handler_pair :=
| handlers_D8 (rhandler whandler : delegate)
| handlers_D16 (rhandler whandler : delegate)
| handlers_D32 (rhandler whandler : delegate).

(** Modelled from the spec: one binding of the decoder table of an
    address space, from an inclusive range to a handler pair under a
    mask. *)
Record decoder := Decoder {
  addrstart : offs_t;
  addrend : offs_t;
  handlers : handler_pair;
  unitmask : Z
}.

(** Modelled from the spec: address_space, the shared address space, of
    which vme.cpp uses the native width and the decoder table. *)
Record address_space := AddressSpace {
  as_data_width : Z;
  as_decoders : list decoder
}.

Inductive endianness_t := ENDIANNESS_LITTLE | ENDIANNESS_BIG.

(** address_space_config, with the members the constructor of the bus
    gives: name, endianness, data width, address width, address shift and
    internal map. *)
Record address_space_config := AddressSpaceConfig {
  as_name : string;
  m_endianness : endianness_t;
  m_databus_width : Z;
  m_addrbus_width : Z;
  m_addrbus_shift : Z;
  m_internal_map : option ptr
}.

(** Modelled from the spec: cpu_device, the external processor; what
    device_start uses of it is its program space and the configuration of
    that space. *)
Record cpu_device := CpuDevice {
  cpu_space : option ptr;
  cpu_space_config : option address_space_config
}.

(** Modelled from the spec: simple_list<device_vme_card_interface>, the
    ordered card list of the bus.  The links are the cards' [m_next]
    members; the list itself holds both ends and a count. *)
Record simple_list := SimpleList {
  m_head : option ptr;
  m_tail : option ptr;
  m_count : Z
}.

Record vme_device := VmeDevice {
  (* device_t *)
  m_name : string;
  m_shortname : string;
  m_tag : string;
  m_owner : option ptr;
  m_clock : Z;
  (* device_memory_interface: the device's own program space *)
  m_addrspace : option ptr;
  (* vme_device *)
  m_a32_config : address_space_config;
  m_allocspaces : bool;
  m_cputag : string;
  m_maincpu : option ptr;
  m_prgspace : option ptr;
  m_prgwidth : option Z;
  m_device_list : simple_list
}.

Record device_vme_card_interface := VmeCard {
  m_device : ptr;
  m_vme : option ptr;
  m_vme_tag : option string;
  m_vme_slottag : option string;
  m_slot : Z;
  m_next : option ptr
}.

(** vme_slot_device has members m_vme_tag and m_vme_slottag as the card
    interface has; here they carry the prefix [slot_]. *)
Record vme_slot_device := VmeSlot {
  slot_tag : string;
  slot_card_device : option ptr;
  slot_m_vme_tag : option string;
  slot_m_vme_slottag : option string
}.

(** The dynamic type of an object. *)
Inductive object :=
| obj_vme_slot_device (s : vme_slot_device)
| obj_vme_device (v : vme_device)
| obj_vme_card (c : device_vme_card_interface)
| obj_cpu_device (c : cpu_device)
| obj_address_space (a : address_space)
| obj_device.

Record running_machine := Machine {
  heap : gmap ptr object;
  (* device_t::subdevice: the devices by owner and tag *)
  subdevices : gmap (ptr * string) ptr;
  root_device : ptr;
  (* what logerror, which vme.cpp defines as printf, has written *)
  stdout : list string
}.

(** ** Results and the monad *)

Inductive exception :=
| emu_fatalerror (format : string) (args : list Z)
| bad_cast.

Inductive result (A : Type) :=
| Ret (a : A) (m : running_machine)
| Throw (e : exception) (m : running_machine)
| Undefined.
Arguments Ret {A} a m.
Arguments Throw {A} e m.
Arguments Undefined {A}.

Definition M (A : Type) : Type := running_machine → result A.

#[global] Instance M_ret : MRet M := λ A a m, Ret a m.
#[global] Instance M_bind : MBind M := λ A B f x m,
  match x m with
  | Ret a m' => f a m'
  | Throw e m' => Throw e m'
  | Undefined => Undefined
  end.

Definition throw {A} (e : exception) : M A := λ m, Throw e m.
Definition undefined {A} : M A := λ _, Undefined.

(** [fatalerror] throws emu_fatalerror with the format and its arguments. *)
Definition fatalerror {A} (format : string) (args : list Z) : M A :=
  throw (emu_fatalerror format args).

(** Access through a pointer: a null or dangling pointer, or an object of
    another type behind a static cast, is undefined behaviour. *)
Definition nonnull (p : option ptr) : M ptr :=
  match p with
  | Some q => mret q
  | None => undefined
  end.

(** Reading a member no one has assigned yet is undefined as well. *)
Definition assigned {A} (x : option A) : M A :=
  match x with
  | Some a => mret a
  | None => undefined
  end.

(** What a pointer to a value points to. *)
Definition pointee {A} (x : option A) : M A :=
  match x with
  | Some a => mret a
  | None => undefined
  end.

Definition load {A} (proj : object → option A) (q : ptr) : M A := λ m,
  match heap m !! q with
  | Some o => match proj o with Some a => Ret a m | None => Undefined end
  | None => Undefined
  end.

Definition store (p : ptr) (o : object) : M unit := λ m,
  Ret tt (Machine (<[p := o]> (heap m)) (subdevices m) (root_device m) (stdout m)).

(** A constructor initialises the members of an object in storage that
    holds no live object. *)
Definition construct (this : ptr) (o : object) : M unit := λ m,
  match heap m !! this with
  | None => store this o m
  | Some _ => Undefined
  end.

(** The end of a destructor: the lifetime of the object ends, and its
    storage holds no live object any more. *)
Definition destroy {A} (proj : object → option A) (this : ptr) : M unit := λ m,
  match heap m !! this with
  | Some o =>
      match proj o with
      | Some _ => Ret tt (Machine (delete this (heap m)) (subdevices m) (root_device m) (stdout m))
      | None => Undefined
      end
  | None => Undefined
  end.

Definition as_vme_slot_device (o : object) : option vme_slot_device :=
  match o with obj_vme_slot_device s => Some s | _ => None end.
Definition as_vme_device (o : object) : option vme_device :=
  match o with obj_vme_device v => Some v | _ => None end.
Definition as_vme_card (o : object) : option device_vme_card_interface :=
  match o with obj_vme_card c => Some c | _ => None end.
Definition as_cpu_device (o : object) : option cpu_device :=
  match o with obj_cpu_device c => Some c | _ => None end.
Definition as_address_space (o : object) : option address_space :=
  match o with obj_address_space a => Some a | _ => None end.

(** [dynamic_cast<T *>(p)]: null when [p] is null or its object is no [T]. *)
Definition dynamic_cast {A} (proj : object → option A) (p : option ptr) : M (option ptr) := λ m,
  match p with
  | Some q =>
      match heap m !! q with
      | Some o => match proj o with Some _ => Ret (Some q) m | None => Ret None m end
      | None => Ret None m
      end
  | None => Ret None m
  end.

(** Modelled from the spec: device_t::subdevice, the lookup of a device
    by name below an owner; a name no device has, and the null name,
    find nothing. *)
Definition subdevice (owner : ptr) (tag : option string) : M (option ptr) := λ m,
  match tag with
  | Some t => Ret (subdevices m !! (owner, t)) m
  | None => Ret None m
  end.

(** Modelled from the spec: running_machine::device, the lookup by name
    in the device registry of the machine, which is that of its root
    device. *)
Definition machine_device (tag : option string) : M (option ptr) := λ m,
  subdevice (root_device m) tag m.

(** ** Logging *)

Definition LOG_GENERAL : Z := 0x01.
Definition LOG_SETUP : Z := 0x02.
Definition LOG_PRINTF : Z := 0x04.
Definition VERBOSE : Z := 0.

Definition logerror (format : string) : M unit := λ m,
  Ret tt (Machine (heap m) (subdevices m) (root_device m) (stdout m ++ [format])).

(** The arguments of a LOG are evaluated inside the guard only, so the
    model keeps the format and leaves them out. *)
Definition LOGMASK (mask : Z) (format : string) : M unit :=
  if bool_decide (Z.land VERBOSE mask ≠ 0) then logerror format else mret tt.

Definition LOG := LOGMASK LOG_GENERAL.
Definition LOGSETUP := LOGMASK LOG_SETUP.

(** ** Integer conversions *)

Definition uint8_t (x : Z) : Z := x `mod` 2 ^ 8.
Definition uint16_t (x : Z) : Z := x `mod` 2 ^ 16.
Definition uint32_t (x : Z) : Z := x `mod` 2 ^ 32.

(** ** Member assignment *)

Definition with_m_cputag (x : string) (v : vme_device) : vme_device :=
  VmeDevice (m_name v) (m_shortname v) (m_tag v) (m_owner v) (m_clock v) (m_addrspace v) (m_a32_config v)
    (m_allocspaces v) x (m_maincpu v) (m_prgspace v) (m_prgwidth v) (m_device_list v).
Definition with_m_allocspaces (x : bool) (v : vme_device) : vme_device :=
  VmeDevice (m_name v) (m_shortname v) (m_tag v) (m_owner v) (m_clock v) (m_addrspace v) (m_a32_config v)
    x (m_cputag v) (m_maincpu v) (m_prgspace v) (m_prgwidth v) (m_device_list v).
Definition with_m_maincpu (x : option ptr) (v : vme_device) : vme_device :=
  VmeDevice (m_name v) (m_shortname v) (m_tag v) (m_owner v) (m_clock v) (m_addrspace v) (m_a32_config v)
    (m_allocspaces v) (m_cputag v) x (m_prgspace v) (m_prgwidth v) (m_device_list v).
Definition with_m_prgspace (x : option ptr) (v : vme_device) : vme_device :=
  VmeDevice (m_name v) (m_shortname v) (m_tag v) (m_owner v) (m_clock v) (m_addrspace v) (m_a32_config v)
    (m_allocspaces v) (m_cputag v) (m_maincpu v) x (m_prgwidth v) (m_device_list v).
Definition with_m_prgwidth (x : option Z) (v : vme_device) : vme_device :=
  VmeDevice (m_name v) (m_shortname v) (m_tag v) (m_owner v) (m_clock v) (m_addrspace v) (m_a32_config v)
    (m_allocspaces v) (m_cputag v) (m_maincpu v) (m_prgspace v) x (m_device_list v).
Definition with_m_device_list (x : simple_list) (v : vme_device) : vme_device :=
  VmeDevice (m_name v) (m_shortname v) (m_tag v) (m_owner v) (m_clock v) (m_addrspace v) (m_a32_config v)
    (m_allocspaces v) (m_cputag v) (m_maincpu v) (m_prgspace v) (m_prgwidth v) x.

Definition with_m_vme (x : option ptr) (c : device_vme_card_interface) :=
  VmeCard (m_device c) x (m_vme_tag c) (m_vme_slottag c) (m_slot c) (m_next c).
Definition with_m_vme_tags (tag slottag : option string) (c : device_vme_card_interface) :=
  VmeCard (m_device c) (m_vme c) tag slottag (m_slot c) (m_next c).
Definition with_m_next (x : option ptr) (c : device_vme_card_interface) :=
  VmeCard (m_device c) (m_vme c) (m_vme_tag c) (m_vme_slottag c) (m_slot c) x.

Definition with_slot_tags (tag slottag : option string) (s : vme_slot_device) :=
  VmeSlot (slot_tag s) (slot_card_device s) tag slottag.

(** [this->member = x] *)
Definition assign (this : ptr) (f : vme_device → vme_device) : M unit :=
  v ← load as_vme_device this;
  store this (obj_vme_device (f v)).

Definition assign_card (this : ptr) (f : device_vme_card_interface → device_vme_card_interface) : M unit :=
  c ← load as_vme_card this;
  store this (obj_vme_card (f c)).

(** ** The collaborators vme.cpp calls *)

Inductive address_spacenum := AS_PROGRAM.

Module device_memory_interface.

(** Modelled from the spec: device_memory_interface::space, which hands
    out the program address space of a device that has one (the bus
    itself, or a processor). *)
Definition space (this : ptr) (spacenum : address_spacenum) : M ptr := λ m,
  match heap m !! this with
  | Some (obj_vme_device v) => nonnull (m_addrspace v) m
  | Some (obj_cpu_device c) => nonnull (cpu_space c) m
  | _ => Undefined
  end.

(** Modelled from the spec: device_memory_interface::space_config of a
    processor, a pointer to the configuration of its program space. *)
Definition space_config (this : ptr) (spacenum : address_spacenum) : M (option address_space_config) :=
  c ← load as_cpu_device this;
  mret (cpu_space_config c).

End device_memory_interface.

Module address_space.

(** Modelled from the spec: address_space::data_width, the native width
    of the space. *)
Definition data_width (this : ptr) : M Z :=
  a ← load as_address_space this;
  mret (as_data_width a).

(** Modelled from the spec: address_space::install_readwrite_handler,
    which binds the range to the handler pair under the given mask in
    the decoder table of the space. *)
Definition install_readwrite_handler (this : ptr) (addrstart addrend : offs_t)
    (h : handler_pair) (unitmask : Z) : M unit :=
  a ← load as_address_space this;
  store this (obj_address_space
    (AddressSpace (as_data_width a) (as_decoders a ++ [Decoder addrstart addrend h unitmask]))).

End address_space.

Module simple_list.

(** Modelled from the spec: simple_list::append.  The list is intrusive:
    the new card ends the chain, the former last card links to it. *)
Definition append (l : simple_list) (object : ptr) : M simple_list :=
  assign_card object (with_m_next None);;
  match m_tail l with
  | Some t =>
      assign_card t (with_m_next (Some object));;
      mret (SimpleList (m_head l) (Some object) (m_count l + 1))
  | None =>
      mret (SimpleList (Some object) (Some object) (m_count l + 1))
  end.

(** Modelled from the spec: simple_list::detach_all, which forgets the
    cards and frees none of them. *)
Definition detach_all (l : simple_list) : simple_list :=
  SimpleList None None 0.

(** Modelled from the spec: simple_list::first and simple_list::count,
    the first card of the list and the number of cards it holds. *)
Definition first (l : simple_list) : option ptr := m_head l.
Definition count (l : simple_list) : Z := m_count l.

(** Modelled from the spec: the enumeration of the list, from a card on
    through the [m_next] links until the chain ends.  It gives the cards
    met, or [None] when the walk outlasts the fuel or leaves the cards. *)
Fixpoint walk (fuel : nat) (h : gmap ptr object) (p : option ptr) : option (list ptr) :=
  match p with
  | None => Some []
  | Some q =>
      match fuel with
      | O => None
      | S fuel' =>
          match h !! q with
          | Some (obj_vme_card c) =>
              match walk fuel' h (m_next c) with
              | Some l => Some (q :: l)
              | None => None
              end
          | _ => None
          end
      end
  end.

End simple_list.

(** ** vme_device: the bus *)

Module vme_device.

(** static_set_cputag - used to be able to lookup the CPU owning this
    VME bus *)
Definition static_set_cputag (device : ptr) (tag : string) : M unit :=
  assign device (with_m_cputag tag).

(** static_use_owner_spaces - disables use of the memory interface and
    uses the address spaces of the owner instead *)
Definition static_use_owner_spaces (device : ptr) : M unit :=
  LOG "%s %s\n";;
  assign device (with_m_allocspaces false).

(** vme_device::vme_device(mconfig, tag, owner, clock).  m_maincpu,
    m_prgspace and m_prgwidth have no initialiser. *)
Definition ctor (this : ptr) (tag : string) (owner : option ptr) (clock : Z) : M unit :=
  construct this (obj_vme_device
    (VmeDevice "VME" "vme" tag owner clock None
       (AddressSpaceConfig "VME A32" ENDIANNESS_BIG 32 32 0 None)
       true "maincpu" None None None (SimpleList None None 0)));;
  LOG "%s %s\n".

(** vme_device::vme_device(mconfig, type, name, tag, owner, clock,
    shortname, source); the type and the source file name go to
    device_t and are not kept here. *)
Definition ctor_typed (this : ptr) (name tag : string) (owner : option ptr) (clock : Z)
    (shortname : string) : M unit :=
  construct this (obj_vme_device
    (VmeDevice name shortname tag owner clock None
       (AddressSpaceConfig "VME A32" ENDIANNESS_BIG 32 32 0 None)
       true "maincpu" None None None (SimpleList None None 0)));;
  LOG "%s %s\n".

(** vme_device::~vme_device, what stands between its braces. *)
Definition dtor_body (this : ptr) : M unit :=
  LOG "%s %s\n";;
  assign this (λ v, with_m_device_list (simple_list.detach_all (m_device_list v)) v).

(** vme_device::~vme_device: after the body the bus is no object any
    more. *)
Definition dtor (this : ptr) : M unit :=
  dtor_body this;;
  destroy as_vme_device this.

Definition device_start (this : ptr) : M unit :=
  LOG "%s %s %s\n";;
  v ← load as_vme_device this;
  if m_allocspaces v then
    LOG " - using my own memory spaces\n";;
    prgspace ← device_memory_interface.space this AS_PROGRAM;
    assign this (with_m_prgspace (Some prgspace));;
    prgwidth ← address_space.data_width prgspace;
    assign this (with_m_prgwidth (Some prgwidth));;
    LOG " - Done at %d width\n"
  else
    LOG " - using owner memory spaces for %s\n";;
    owner ← nonnull (m_owner v);
    maincpu ← subdevice owner (Some (m_cputag v));
    assign this (with_m_maincpu maincpu);;
    cpu ← nonnull maincpu;
    prgspace ← device_memory_interface.space cpu AS_PROGRAM;
    assign this (with_m_prgspace (Some prgspace));;
    cpu ← nonnull maincpu;
    config ← device_memory_interface.space_config cpu AS_PROGRAM;
    config ← pointee config;
    assign this (with_m_prgwidth (Some (m_databus_width config)));;
    LOG " - Done at %d width\n".

Definition device_reset (this : ptr) : M unit :=
  LOG "%s %s\n".

Definition add_vme_card (this : ptr) (card : option ptr) : M unit :=
  LOG "%s %s\n";;
  v ← load as_vme_device this;
  object ← nonnull card;
  l ← simple_list.append (m_device_list v) object;
  assign this (with_m_device_list l).

(** D8 bit devices in A16, A24 and A32 *)
Definition install_device_D8 `{vme_amod_enum} (this : ptr) (amod : vme_amod_t)
    (start end_ : offs_t) (rhandler whandler : delegate) (mask : Z) : M unit :=
  LOG "%s %s AM%d D%02x\n";;
  LOG " - width:%d\n";;
  (if bool_decide (amod = A16_SC) then mret tt
   else if bool_decide (amod = A24_SC) then mret tt
   else if bool_decide (amod = A32_SC) then mret tt
   else fatalerror "VME D8: Non supported Address modifier: AM%02x\n" [amod]);;
  v ← load as_vme_device this;
  prgwidth ← assigned (m_prgwidth v);
  if bool_decide (prgwidth = 16) then
    prgspace ← nonnull (m_prgspace v);
    address_space.install_readwrite_handler prgspace start end_
      (handlers_D8 rhandler whandler) (uint16_t (Z.land mask 0x0000ffff))
  else if bool_decide (prgwidth = 24) then
    prgspace ← nonnull (m_prgspace v);
    address_space.install_readwrite_handler prgspace start end_
      (handlers_D8 rhandler whandler) (uint32_t (Z.land mask 0x00ffffff))
  else if bool_decide (prgwidth = 32) then
    prgspace ← nonnull (m_prgspace v);
    address_space.install_readwrite_handler prgspace start end_
      (handlers_D8 rhandler whandler) mask
  else fatalerror "VME D8: Bus width %d not supported\n" [prgwidth].

(** D16 bit devices in A16, A24 and A32 *)
Definition install_device_D16 `{vme_amod_enum} (this : ptr) (amod : vme_amod_t)
    (start end_ : offs_t) (rhandler whandler : delegate) (mask : Z) : M unit :=
  LOG "%s %s AM%d D%02x\n";;
  LOG " - width:%d\n";;
  (if bool_decide (amod = A16_SC) then mret tt
   else if bool_decide (amod = A24_SC) then mret tt
   else if bool_decide (amod = A32_SC) then mret tt
   else fatalerror "VME D16: Non supported Address modifier: %02x\n" [amod]);;
  v ← load as_vme_device this;
  prgwidth ← assigned (m_prgwidth v);
  if bool_decide (prgwidth = 16) then
    prgspace ← nonnull (m_prgspace v);
    address_space.install_readwrite_handler prgspace start end_
      (handlers_D16 rhandler whandler) (uint16_t (Z.land mask 0x0000ffff))
  else if bool_decide (prgwidth = 24) then
    prgspace ← nonnull (m_prgspace v);
    address_space.install_readwrite_handler prgspace start end_
      (handlers_D16 rhandler whandler) (uint32_t (Z.land mask 0x00ffffff))
  else if bool_decide (prgwidth = 32) then
    prgspace ← nonnull (m_prgspace v);
    address_space.install_readwrite_handler prgspace start end_
      (handlers_D16 rhandler whandler) mask
  else fatalerror "VME D16: Bus width %d not supported\n" [prgwidth].

(** D32 bit devices in A16, A24 and A32 *)
Definition install_device_D32 `{vme_amod_enum} (this : ptr) (amod : vme_amod_t)
    (start end_ : offs_t) (rhandler whandler : delegate) (mask : Z) : M unit :=
  LOG "%s %s AM%d D%02x\n";;
  LOG " - width:%d\n";;
  (if bool_decide (amod = A16_SC) then mret tt
   else if bool_decide (amod = A24_SC) then mret tt
   else if bool_decide (amod = A32_SC) then mret tt
   else fatalerror "VME D32: Non supported Address modifier: %02x\n" [amod]);;
  v ← load as_vme_device this;
  prgwidth ← assigned (m_prgwidth v);
  if bool_decide (prgwidth = 16) then
    prgspace ← nonnull (m_prgspace v);
    address_space.install_readwrite_handler prgspace start end_
      (handlers_D32 rhandler whandler) (uint16_t (Z.land mask 0x0000ffff))
  else if bool_decide (prgwidth = 24) then
    prgspace ← nonnull (m_prgspace v);
    address_space.install_readwrite_handler prgspace start end_
      (handlers_D32 rhandler whandler) (uint32_t (Z.land mask 0x00ffffff))
  else if bool_decide (prgwidth = 32) then
    prgspace ← nonnull (m_prgspace v);
    address_space.install_readwrite_handler prgspace start end_
      (handlers_D32 rhandler whandler) mask
  else fatalerror "VME D32: Bus width %d not supported\n" [prgwidth].

(** The overload the handler types select. *)
Definition install_device `{vme_amod_enum} (this : ptr) (amod : vme_amod_t)
    (start end_ : offs_t) (h : handler_pair) (mask : Z) : M unit :=
  match h with
  | handlers_D8 rhandler whandler => install_device_D8 this amod start end_ rhandler whandler mask
  | handlers_D16 rhandler whandler => install_device_D16 this amod start end_ rhandler whandler mask
  | handlers_D32 rhandler whandler => install_device_D32 this amod start end_ rhandler whandler mask
  end.

End vme_device.

(** ** device_vme_card_interface: what every card implements *)

Module device_vme_card_interface.

Definition ctor (this : ptr) (device : ptr) : M unit :=
  construct this (obj_vme_card (VmeCard device None None None 0 None));;
  LOG "%s %s\n".

(** device_vme_card_interface::~device_vme_card_interface: after the body
    the card is no object any more. *)
Definition dtor (this : ptr) : M unit :=
  LOG "%s %s\n";;
  destroy as_vme_card this.

Definition static_set_vme_tag (device : ptr) (tag slottag : option string) : M unit :=
  LOG "%s %s\n";;
  vme_card ← dynamic_cast as_vme_card (Some device);
  match vme_card with
  | Some card => assign_card card (with_m_vme_tags tag slottag)
  | None => throw bad_cast
  end.

Definition set_vme_device (this : ptr) : M unit :=
  LOG "%s %s\n";;
  c ← load as_vme_card this;
  found ← machine_device (m_vme_tag c);
  vme ← dynamic_cast as_vme_device found;
  assign_card this (with_m_vme vme);;
  match vme with
  | Some bus => vme_device.add_vme_card bus (Some this)
  | None => mret tt
  end.

(** VME D8 accesses: READ8_MEMBER and WRITE8_MEMBER give a member the
    parameters (space, offset, mem_mask) and (space, offset, data,
    mem_mask). *)
Definition read8 (this : ptr) (space : ptr) (offset : offs_t) (mem_mask : Z) : M Z :=
  let result := uint8_t 0x00 in
  LOG "%s %s Offset:%08x\n";;
  mret result.

Definition write8 (this : ptr) (space : ptr) (offset : offs_t) (data : Z) (mem_mask : Z) : M unit :=
  LOG "%s %s Offset:%08x\n".

End device_vme_card_interface.

(** Modelled from the spec: read8 and write8 are the entry points a
    concrete card overrides; vme.h, which declares them virtual, is a
    header of its own.  A card class says which of the two it overrides,
    and a call through the interface runs the override or else the base
    member. *)
Record vme_card_class := VmeCardClass {
  override_read8 : option (ptr → ptr → offs_t → Z → M Z);
  override_write8 : option (ptr → ptr → offs_t → Z → Z → M unit)
}.

Definition card_read8 (cls : vme_card_class) : ptr → ptr → offs_t → Z → M Z :=
  default device_vme_card_interface.read8 (override_read8 cls).

Definition card_write8 (cls : vme_card_class) : ptr → ptr → offs_t → Z → Z → M unit :=
  default device_vme_card_interface.write8 (override_write8 cls).

(** ** vme_slot_device: a position of the backplane *)

Module vme_slot_device.

(** Both constructors initialise the members alike. *)
Definition ctor (this : ptr) (tag : string) : M unit :=
  construct this (obj_vme_slot_device (VmeSlot tag None None None));;
  LOG "%s %s\n".

Definition static_update_vme_chains (device : ptr) (slot_nbr : Z) : M unit :=
  LOG "%s %s - %d\n".

Definition static_set_vme_slot (device : ptr) (tag slottag : option string) : M unit :=
  LOG "%s %s - %s\n";;
  vme_card ← dynamic_cast as_vme_slot_device (Some device);
  match vme_card with
  | Some slot =>
      s ← load as_vme_slot_device slot;
      store slot (obj_vme_slot_device (with_slot_tags tag slottag s))
  | None => throw bad_cast
  end.

Definition device_start (this : ptr) : M unit :=
  s ← load as_vme_slot_device this;
  dev ← dynamic_cast as_vme_card (slot_card_device s);
  LOG "%s %s - %s:%s\n";;
  match dev with
  | Some card =>
      device_vme_card_interface.static_set_vme_tag card (slot_m_vme_tag s) (slot_m_vme_slottag s)
  | None => mret tt
  end.

Definition device_config_complete (this : ptr) : M unit :=
  LOG "%s %s\n".

(** P1 D8 read *)
Definition read8 (this : ptr) (space : ptr) (offset : offs_t) (mem_mask : Z) : M Z :=
  let result := uint16_t 0x00 in
  LOG "%s %s\n";;
  mret (uint8_t result).

(** P1 D8 write *)
Definition write8 (this : ptr) (space : ptr) (offset : offs_t) (data : Z) (mem_mask : Z) : M unit :=
  LOG "%s %s\n".

End vme_slot_device.

(** * Vocabulary of the properties *)

(** The diagnostics of the three overloads. *)
Definition amod_error_format (h : handler_pair) : string :=
  match h with
  | handlers_D8 _ _ => "VME D8: Non supported Address modifier: AM%02x\n"
  | handlers_D16 _ _ => "VME D16: Non supported Address modifier: %02x\n"
  | handlers_D32 _ _ => "VME D32: Non supported Address modifier: %02x\n"
  end.

Definition width_error_format (h : handler_pair) : string :=
  match h with
  | handlers_D8 _ _ => "VME D8: Bus width %d not supported\n"
  | handlers_D16 _ _ => "VME D16: Bus width %d not supported\n"
  | handlers_D32 _ _ => "VME D32: Bus width %d not supported\n"
  end.

(** The machine after one more decoder has entered the table of [space]. *)
Definition registered (m : running_machine) (space : ptr) (a : address_space) (d : decoder) :=
  Machine (<[space := obj_address_space (AddressSpace (as_data_width a) (as_decoders a ++ [d]))]> (heap m))
    (subdevices m) (root_device m) (stdout m).

(** Attaching cards one after the other, as their start-up does. *)
Fixpoint attach_cards (bus : ptr) (cards : list ptr) : M unit :=
  match cards with
  | [] => mret tt
  | card :: cards' =>
      vme_device.add_vme_card bus (Some card);;
      attach_cards bus cards'
  end.

Definition is_card (h : gmap ptr object) (p : ptr) : Prop :=
  ∃ c, h !! p = Some (obj_vme_card c).

(** The cards [l] are chained in [h] from [p] on, and the chain goes on
    with [q]. *)
Fixpoint lseg (h : gmap ptr object) (p : option ptr) (l : list ptr) (q : option ptr) : Prop :=
  match l with
  | [] => p = q
  | x :: l' => p = Some x ∧ ∃ c, h !! x = Some (obj_vme_card c) ∧ lseg h (m_next c) l' q
  end.

(** The list of [bus] counts [n] cards and its last card, if any, is a
    live card. *)
Definition counts (m : running_machine) (bus : ptr) (n : Z) : Prop :=
  ∃ v, heap m !! bus = Some (obj_vme_device v)
    ∧ m_count (m_device_list v) = n
    ∧ match m_tail (m_device_list v) with
      | Some t => is_card (heap m) t
      | None => True
      end.

(** The list of [bus] chains exactly the cards [l], in this order. *)
Definition chains (m : running_machine) (bus : ptr) (l : list ptr) : Prop :=
  ∃ v, heap m !! bus = Some (obj_vme_device v)
    ∧ lseg (heap m) (m_head (m_device_list v)) l None
    ∧ m_tail (m_device_list v) = last l.

(** A bus that uses the address space of its owner's processor. *)
Definition delegating (m : running_machine) (bus : ptr) : Prop :=
  ∃ v, heap m !! bus = Some (obj_vme_device v) ∧ m_allocspaces v = false.

Definition no_new_delegation (m m' : running_machine) : Prop :=
  ∀ bus, delegating m' bus → delegating m bus.

(** Every way a run that ends, normally or by an exception, relates the
    machine before to the machine after. *)
Definition respects {A} (R : running_machine → running_machine → Prop) (x : M A) : Prop :=
  ∀ m, match x m with
       | Ret _ m' => R m m'
       | Throw _ m' => R m m'
       | Undefined => True
       end.

(** The member functions of vme.cpp. *)
Inductive call :=
| call_vme_static_set_cputag (device : ptr) (tag : string)
| call_vme_static_use_owner_spaces (device : ptr)
| call_vme_ctor (this : ptr) (tag : string) (owner : option ptr) (clock : Z)
| call_vme_ctor_typed (this : ptr) (name tag : string) (owner : option ptr) (clock : Z)
    (shortname : string)
| call_vme_dtor (this : ptr)
| call_vme_device_start (this : ptr)
| call_vme_device_reset (this : ptr)
| call_vme_add_vme_card (this : ptr) (card : option ptr)
| call_vme_install_device (this : ptr) (amod : vme_amod_t) (start end_ : offs_t)
    (h : handler_pair) (mask : Z)
| call_card_ctor (this device : ptr)
| call_card_dtor (this : ptr)
| call_card_static_set_vme_tag (device : ptr) (tag slottag : option string)
| call_card_set_vme_device (this : ptr)
| call_card_read8 (this space : ptr) (offset : offs_t) (mem_mask : Z)
| call_card_write8 (this space : ptr) (offset : offs_t) (data mem_mask : Z)
| call_slot_ctor (this : ptr) (tag : string)
| call_slot_static_update_vme_chains (device : ptr) (slot_nbr : Z)
| call_slot_static_set_vme_slot (device : ptr) (tag slottag : option string)
| call_slot_device_start (this : ptr)
| call_slot_device_config_complete (this : ptr)
| call_slot_read8 (this space : ptr) (offset : offs_t) (mem_mask : Z)
| call_slot_write8 (this space : ptr) (offset : offs_t) (data mem_mask : Z).

Definition run `{vme_amod_enum} (c : call) : M unit :=
  match c with
  | call_vme_static_set_cputag device tag => vme_device.static_set_cputag device tag
  | call_vme_static_use_owner_spaces device => vme_device.static_use_owner_spaces device
  | call_vme_ctor this tag owner clock => vme_device.ctor this tag owner clock
  | call_vme_ctor_typed this name tag owner clock shortname =>
      vme_device.ctor_typed this name tag owner clock shortname
  | call_vme_dtor this => vme_device.dtor this
  | call_vme_device_start this => vme_device.device_start this
  | call_vme_device_reset this => vme_device.device_reset this
  | call_vme_add_vme_card this card => vme_device.add_vme_card this card
  | call_vme_install_device this amod start end_ h mask =>
      vme_device.install_device this amod start end_ h mask
  | call_card_ctor this device => device_vme_card_interface.ctor this device
  | call_card_dtor this => device_vme_card_interface.dtor this
  | call_card_static_set_vme_tag device tag slottag =>
      device_vme_card_interface.static_set_vme_tag device tag slottag
  | call_card_set_vme_device this => device_vme_card_interface.set_vme_device this
  | call_card_read8 this space offset mem_mask =>
      device_vme_card_interface.read8 this space offset mem_mask;; mret tt
  | call_card_write8 this space offset data mem_mask =>
      device_vme_card_interface.write8 this space offset data mem_mask
  | call_slot_ctor this tag => vme_slot_device.ctor this tag
  | call_slot_static_update_vme_chains device slot_nbr =>
      vme_slot_device.static_update_vme_chains device slot_nbr
  | call_slot_static_set_vme_slot device tag slottag =>
      vme_slot_device.static_set_vme_slot device tag slottag
  | call_slot_device_start this => vme_slot_device.device_start this
  | call_slot_device_config_complete this => vme_slot_device.device_config_complete this
  | call_slot_read8 this space offset mem_mask =>
      vme_slot_device.read8 this space offset mem_mask;; mret tt
  | call_slot_write8 this space offset data mem_mask =>
      vme_slot_device.write8 this space offset data mem_mask
  end.

(** ** A machine to run the code on *)

(** The codes the VME standard gives the three address modifiers. *)
Definition vme_rev_c : vme_amod_enum :=
  {| A16_SC := 0x29; A24_SC := 0x39; A32_SC := 0x09 |}.

(** Object 1 is the root device, 2 the bus, 3 its own program space,
    4 a processor with the program space 5, and 6, 7, 8 are cards. *)
Definition sample_bus (allocspaces : bool) (prgspace : option ptr) (prgwidth : option Z) : vme_device :=
  VmeDevice "VME" "vme" "vme" (Some 1%positive) 0 (Some 3%positive)
    (AddressSpaceConfig "VME A32" ENDIANNESS_BIG 32 32 0 None)
    allocspaces "maincpu" None prgspace prgwidth (SimpleList None None 0).

Definition sample_card (device : ptr) (tag : option string) : device_vme_card_interface :=
  VmeCard device None tag (Some "slot1") 0 None.

Definition sample_heap (bus : vme_device) (width : Z) : gmap ptr object :=
  <[1%positive := obj_device]>
  (<[2%positive := obj_vme_device bus]>
  (<[3%positive := obj_address_space (AddressSpace width [])]>
  (<[4%positive := obj_cpu_device
       (CpuDevice (Some 5%positive) (Some (AddressSpaceConfig "program" ENDIANNESS_BIG width 32 0 None)))]>
  (<[5%positive := obj_address_space (AddressSpace width [])]>
  (<[6%positive := obj_vme_card (sample_card 6%positive (Some "vme"))]>
  (<[7%positive := obj_vme_card (sample_card 7%positive (Some "vme"))]>
  (<[8%positive := obj_vme_card (sample_card 8%positive (Some "vme2"))]> ∅))))))).

(** The machine with the processor registered under the tag "maincpu",
    and the machine where no device of the owner has that tag. *)
Definition sample_machine (bus : vme_device) (width : Z) : running_machine :=
  Machine (sample_heap bus width)
    (<[(1%positive, "maincpu") := 4%positive]> (<[(1%positive, "vme") := 2%positive]> ∅))
    1%positive [].

Definition machine_without_cpu (bus : vme_device) (width : Z) : running_machine :=
  Machine (sample_heap bus width) (<[(1%positive, "vme") := 2%positive]> ∅) 1%positive [].

Definition started_bus (width : Z) : vme_device :=
  sample_bus true (Some 3%positive) (Some width).

(** ** Sequences of calls *)

(** One call of install_device: the modifier, the range, the handler
    pair and the mask. *)
Record install_request := InstallRequest {
  rq_amod : vme_amod_t;
  rq_start : offs_t;
  rq_end : offs_t;
  rq_handlers : handler_pair;
  rq_mask : Z
}.

(** The installations of a start-up, one after the other. *)
Fixpoint install_all `{vme_amod_enum} (this : ptr) (requests : list install_request) : M unit :=
  match requests with
  | [] => mret tt
  | r :: requests' =>
      vme_device.install_device this (rq_amod r) (rq_start r) (rq_end r) (rq_handlers r) (rq_mask r);;
      install_all this requests'
  end.

(** The decoder a request leaves on a bus of width [W]. *)
Definition request_decoder (W : Z) (r : install_request) : decoder :=
  Decoder (rq_start r) (rq_end r) (rq_handlers r) (Z.land (rq_mask r) (Z.shiftl 1 W - 1)).

(** ** How the objects of a machine evolve *)

(** From [m] to [m'] every live object stays live and is related to what
    it was by [ok], and every new object satisfies [fresh]. *)
Definition evolves (ok : object → object → Prop) (fresh : object → Prop)
    (m m' : running_machine) : Prop :=
  ∀ p, match heap m !! p, heap m' !! p with
       | Some o, Some o' => ok o o'
       | None, Some o' => fresh o'
       | None, None => True
       | Some _, None => False
       end.

Definition any_object (o : object) : Prop := True.
Definition no_object (o : object) : Prop := False.

(** A bus keeps what device_start has resolved. *)
Definition resolution_kept (o o' : object) : Prop :=
  match o with
  | obj_vme_device v =>
      ∃ v', o' = obj_vme_device v'
        ∧ m_maincpu v' = m_maincpu v
        ∧ m_prgspace v' = m_prgspace v
        ∧ m_prgwidth v' = m_prgwidth v
  | _ => True
  end.

(** A bus keeps its card list and a card its link. *)
Definition list_kept (o o' : object) : Prop :=
  match o with
  | obj_vme_device v => ∃ v', o' = obj_vme_device v' ∧ m_device_list v' = m_device_list v
  | obj_vme_card c => ∃ c', o' = obj_vme_card c' ∧ m_next c' = m_next c
  | _ => True
  end.

(** A card keeps every member but its link. *)
Definition card_kept (o o' : object) : Prop :=
  match o with
  | obj_vme_card c =>
      ∃ c', o' = obj_vme_card c'
        ∧ m_device c' = m_device c ∧ m_vme c' = m_vme c
        ∧ m_vme_tag c' = m_vme_tag c ∧ m_vme_slottag c' = m_vme_slottag c
        ∧ m_slot c' = m_slot c
  | _ => True
  end.

(** An object is as it was, unless it is an address space. *)
Definition space_or_same (o o' : object) : Prop :=
  o' = o ∨ ∃ a a', o = obj_address_space a ∧ o' = obj_address_space a'.

(** An object may change in any way (but stays an object). *)
Definition any_change (o o' : object) : Prop := True.

(** The object [o] at [p] is not touched. *)
Definition keeps_object (p : ptr) (o : object) (m m' : running_machine) : Prop :=
  heap m !! p = Some o → heap m' !! p = Some o.

(** The device registry and the log are as they were. *)
Definition quiet (m m' : running_machine) : Prop :=
  subdevices m' = subdevices m ∧ root_device m' = root_device m ∧ stdout m' = stdout m.

(** ** A machine with a slot *)

(** Object 9 is a slot of the bus "vme" that holds card 6, object 10 an
    empty slot. *)
Definition sample_slot (card : option ptr) (tag slottag : option string) : vme_slot_device :=
  VmeSlot "slot" card tag slottag.

Definition slot_machine (bus : vme_device) (card : device_vme_card_interface) : running_machine :=
  Machine
    (<[9%positive := obj_vme_slot_device (sample_slot (Some 6%positive) (Some "vme") (Some "slot1"))]>
     (<[10%positive := obj_vme_slot_device (sample_slot None (Some "vme") (Some "slot2"))]>
      (<[6%positive := obj_vme_card card]> (sample_heap bus 16))))
    (<[(1%positive, "maincpu") := 4%positive]> (<[(1%positive, "vme") := 2%positive]> ∅))
    1%positive [].


(** A card as its constructor leaves it. *)
Definition new_card (device : ptr) : device_vme_card_interface :=
  VmeCard device None None None 0 None.

(** * Properties *)

(** ** Running the monad *)

Lemma LOGMASK_inert (mask : Z) (format : string) (m : running_machine) :
  LOGMASK mask format m = Ret tt m.
Proof. reflexivity. Qed.

Lemma LOG_inert (format : string) (m : running_machine) : LOG format m = Ret tt m.
Proof. reflexivity. Qed.

Lemma bind_Ret {A B} (x : M A) (f : A → M B) (m m' : running_machine) (a : A) :
  x m = Ret a m' → (x ≫= f) m = f a m'.
Proof. unfold mbind, M_bind. by intros ->. Qed.

Lemma bind_Throw {A B} (x : M A) (f : A → M B) (m m' : running_machine) (e : exception) :
  x m = Throw e m' → (x ≫= f) m = Throw e m'.
Proof. unfold mbind, M_bind. by intros ->. Qed.

Lemma bind_Undefined {A B} (x : M A) (f : A → M B) (m : running_machine) :
  x m = Undefined → (x ≫= f) m = Undefined.
Proof. unfold mbind, M_bind. by intros ->. Qed.

Lemma bind_mret {A B} (a : A) (f : A → M B) (m : running_machine) :
  (mret a ≫= f) m = f a m.
Proof. reflexivity. Qed.

Lemma load_Ret {A} (proj : object → option A) (q : ptr) (o : object) (a : A) (m : running_machine) :
  heap m !! q = Some o → proj o = Some a → load proj q m = Ret a m.
Proof. unfold load. by intros -> ->. Qed.

Lemma assign_Ret (this : ptr) (f : vme_device → vme_device) (v : vme_device) (m : running_machine) :
  heap m !! this = Some (obj_vme_device v) →
  assign this f m
  = Ret tt (Machine (<[this := obj_vme_device (f v)]> (heap m)) (subdevices m) (root_device m) (stdout m)).
Proof.
  intros Hthis. unfold assign.
  by rewrite (bind_Ret _ _ _ _ _ (load_Ret as_vme_device _ _ _ _ Hthis eq_refl)).
Qed.

Lemma assign_card_Ret (this : ptr) (f : device_vme_card_interface → device_vme_card_interface)
    (c : device_vme_card_interface) (m : running_machine) :
  heap m !! this = Some (obj_vme_card c) →
  assign_card this f m
  = Ret tt (Machine (<[this := obj_vme_card (f c)]> (heap m)) (subdevices m) (root_device m) (stdout m)).
Proof.
  intros Hthis. unfold assign_card.
  by rewrite (bind_Ret _ _ _ _ _ (load_Ret as_vme_card _ _ _ _ Hthis eq_refl)).
Qed.

(** ** Address installation *)

Section install_device.
Context `{vme_amod_enum}.

Lemma amod_check_passes (amod : vme_amod_t) (format : string) (m : running_machine) :
  amod ∈ [A16_SC; A24_SC; A32_SC] →
  (if bool_decide (amod = A16_SC) then mret tt
   else if bool_decide (amod = A24_SC) then mret tt
   else if bool_decide (amod = A32_SC) then mret tt
   else fatalerror format [amod]) m = Ret tt m.
Proof.
  rewrite !elem_of_cons, elem_of_nil.
  intros Hin. repeat case_bool_decide; [done..|]. tauto.
Qed.

Lemma amod_check_fails (amod : vme_amod_t) (format : string) (m : running_machine) :
  amod ∉ [A16_SC; A24_SC; A32_SC] →
  (if bool_decide (amod = A16_SC) then mret tt
   else if bool_decide (amod = A24_SC) then mret tt
   else if bool_decide (amod = A32_SC) then mret tt
   else fatalerror format [amod]) m = Throw (emu_fatalerror format [amod]) m.
Proof.
  rewrite !not_elem_of_cons.
  intros (? & ? & ? & _). by repeat case_bool_decide.
Qed.

Lemma install_device_bad_amod (m : running_machine) (this : ptr) (amod : vme_amod_t)
    (start end_ : offs_t) (h : handler_pair) (mask : Z) :
  amod ∉ [A16_SC; A24_SC; A32_SC] →
  vme_device.install_device this amod start end_ h mask m
  = Throw (emu_fatalerror (amod_error_format h) [amod]) m.
Proof.
  intros Hin. destruct h; cbn [vme_device.install_device amod_error_format].
  all: unfold vme_device.install_device_D8, vme_device.install_device_D16,
    vme_device.install_device_D32.
  all: rewrite (bind_Ret _ _ _ _ _ (LOG_inert _ _)), (bind_Ret _ _ _ _ _ (LOG_inert _ _)).
  all: by apply bind_Throw, amod_check_fails.
Qed.

Lemma narrow_16 (mask : Z) : uint16_t (Z.land mask 0x0000ffff) = Z.land mask (Z.shiftl 1 16 - 1).
Proof.
  unfold uint16_t. change 0x0000ffff with (Z.ones 16).
  change (Z.shiftl 1 16 - 1) with (Z.ones 16).
  rewrite Z.land_ones by done. apply Z.mod_mod. done.
Qed.

Lemma narrow_24 (mask : Z) : uint32_t (Z.land mask 0x00ffffff) = Z.land mask (Z.shiftl 1 24 - 1).
Proof.
  unfold uint32_t. change 0x00ffffff with (Z.ones 24).
  change (Z.shiftl 1 24 - 1) with (Z.ones 24).
  rewrite Z.land_ones by done.
  apply Z.mod_small. pose proof (Z.mod_pos_bound mask (2 ^ 24)). lia.
Qed.

Lemma narrow_32 (mask : Z) : 0 ≤ mask < 2 ^ 32 → mask = Z.land mask (Z.shiftl 1 32 - 1).
Proof.
  intros Hmask. change (Z.shiftl 1 32 - 1) with (Z.ones 32).
  rewrite Z.land_ones by done. symmetry. by apply Z.mod_small.
Qed.

Lemma install_readwrite_handler_Ret (m : running_machine) (space : ptr) (a : address_space)
    (start end_ : offs_t) (h : handler_pair) (mask : Z) :
  heap m !! space = Some (obj_address_space a) →
  address_space.install_readwrite_handler space start end_ h mask m
  = Ret tt (registered m space a (Decoder start end_ h mask)).
Proof.
  intros Hspace. unfold address_space.install_readwrite_handler.
  by rewrite (bind_Ret _ _ _ _ _ (load_Ret as_address_space _ _ _ _ Hspace eq_refl)).
Qed.

(** C1: with one of the address modifiers A16_SC, A24_SC, A32_SC and a
    started bus of native width W, 16, 24 or 32, every overload of
    install_device returns normally and enters the range (start, end)
    with its handler pair into the decoder table of the bus's address
    space under the mask [mask & ((1 << W) - 1)], for every 32 bit
    mask; nothing else of the machine changes. *)
Theorem install_device_registers_masked (m : running_machine) (this prgspace : ptr) (v : vme_device)
    (a : address_space) (amod : vme_amod_t) (start end_ : offs_t) (h : handler_pair)
    (mask W : Z) :
  heap m !! this = Some (obj_vme_device v) →
  m_prgwidth v = Some W →
  m_prgspace v = Some prgspace →
  heap m !! prgspace = Some (obj_address_space a) →
  amod ∈ [A16_SC; A24_SC; A32_SC] →
  W ∈ [16; 24; 32] →
  0 ≤ mask < 2 ^ 32 →
  vme_device.install_device this amod start end_ h mask m
  = Ret tt (registered m prgspace a (Decoder start end_ h (Z.land mask (Z.shiftl 1 W - 1)))).
Proof.
  intros Hthis Hwidth Hprg Hspace Hamod HW Hmask.
  destruct h; cbn [vme_device.install_device].
  all: unfold vme_device.install_device_D8, vme_device.install_device_D16,
    vme_device.install_device_D32.
  all: rewrite (bind_Ret _ _ _ _ _ (LOG_inert _ _)), (bind_Ret _ _ _ _ _ (LOG_inert _ _)).
  all: rewrite (bind_Ret _ _ _ _ _ (amod_check_passes _ _ _ Hamod)).
  all: rewrite (bind_Ret _ _ _ _ _ (load_Ret as_vme_device _ _ _ _ Hthis eq_refl)).
  all: rewrite Hwidth, Hprg; cbn [assigned nonnull].
  all: rewrite !elem_of_cons, elem_of_nil in HW.
  all: destruct HW as [-> | [-> | [-> | []]]].
  all: rewrite (bind_Ret _ _ _ _ _ eq_refl).
  all: repeat case_bool_decide; try done.
  all: rewrite (bind_Ret _ _ _ _ _ eq_refl), (install_readwrite_handler_Ret _ _ _ _ _ _ _ Hspace).
  all: rewrite ?narrow_16, ?narrow_24; try done.
  all: by rewrite <- narrow_32.
Qed.

(** C2: with an address modifier other than A16_SC, A24_SC and A32_SC
    every overload of install_device throws the fatal error that names
    the modifier, and the machine at the throw is the machine of the
    call: no decoder table has changed. *)
Theorem install_device_unsupported_amod_fatal (m : running_machine) (this : ptr)
    (amod : vme_amod_t) (start end_ : offs_t) (h : handler_pair) (mask : Z) :
  amod ∉ [A16_SC; A24_SC; A32_SC] →
  vme_device.install_device this amod start end_ h mask m
  = Throw (emu_fatalerror (amod_error_format h) [amod]) m.
Proof.
  intros Hamod. by apply install_device_bad_amod.
Qed.

(** C3: with a supported address modifier and a bus whose native width
    is none of 16, 24 and 32, every overload of install_device throws
    the fatal error that names the width, and the machine at the throw
    is the machine of the call: no decoder table has changed. *)
Theorem install_device_unsupported_width_fatal (m : running_machine) (this : ptr) (v : vme_device)
    (amod : vme_amod_t) (start end_ : offs_t) (h : handler_pair) (mask W : Z) :
  heap m !! this = Some (obj_vme_device v) →
  m_prgwidth v = Some W →
  amod ∈ [A16_SC; A24_SC; A32_SC] →
  W ∉ [16; 24; 32] →
  vme_device.install_device this amod start end_ h mask m
  = Throw (emu_fatalerror (width_error_format h) [W]) m.
Proof.
  intros Hthis Hwidth Hamod HW.
  destruct h; cbn [vme_device.install_device width_error_format].
  all: unfold vme_device.install_device_D8, vme_device.install_device_D16,
    vme_device.install_device_D32.
  all: rewrite (bind_Ret _ _ _ _ _ (LOG_inert _ _)), (bind_Ret _ _ _ _ _ (LOG_inert _ _)).
  all: rewrite (bind_Ret _ _ _ _ _ (amod_check_passes _ _ _ Hamod)).
  all: rewrite (bind_Ret _ _ _ _ _ (load_Ret as_vme_device _ _ _ _ Hthis eq_refl)).
  all: rewrite Hwidth; cbn [assigned].
  all: rewrite !not_elem_of_cons in HW; destruct HW as (? & ? & ? & _).
  all: rewrite (bind_Ret _ _ _ _ _ eq_refl).
  all: by repeat case_bool_decide.
Qed.

(** C9: the address modifier is examined before the width of the bus.
    On a bus of unsupported width, a call with an unsupported address
    modifier throws the address modifier error of its overload, and not
    the width error. *)
Theorem install_device_amod_checked_first (m : running_machine) (this : ptr)
    (v : vme_device) (amod : vme_amod_t) (start end_ : offs_t) (h : handler_pair)
    (mask W : Z) :
  heap m !! this = Some (obj_vme_device v) →
  m_prgwidth v = Some W →
  W ∉ [16; 24; 32] →
  amod ∉ [A16_SC; A24_SC; A32_SC] →
  vme_device.install_device this amod start end_ h mask m
  = Throw (emu_fatalerror (amod_error_format h) [amod]) m
  ∧ vme_device.install_device this amod start end_ h mask m
    ≠ Throw (emu_fatalerror (width_error_format h) [W]) m.
Proof.
  intros _ _ _ Hamod. rewrite (install_device_bad_amod _ _ _ _ _ _ _ Hamod).
  split; [done|]. by destruct h.
Qed.

End install_device.

(** The three scenarios of the mask: a 16 bit bus narrows 0xFFFFFFFF to
    0x0000FFFF, a 24 bit bus leaves 0x00FF00FF, a 32 bit bus leaves
    0xFFFFFFFF. *)
Lemma install_device_registers_masked_witness :
  @vme_device.install_device vme_rev_c 2%positive 0x29 0x100 0x1ff
    (handlers_D8 (Delegate "read8" 6%positive) (Delegate "write8" 6%positive)) 0xFFFFFFFF
    (sample_machine (started_bus 16) 16)
  = Ret tt (registered (sample_machine (started_bus 16) 16) 3%positive (AddressSpace 16 [])
      (Decoder 0x100 0x1ff
         (handlers_D8 (Delegate "read8" 6%positive) (Delegate "write8" 6%positive)) 0x0000FFFF)).
Proof.
  apply (@install_device_registers_masked vme_rev_c (sample_machine (started_bus 16) 16)
           2%positive 3%positive (started_bus 16) (AddressSpace 16 []) 0x29 0x100 0x1ff
           (handlers_D8 (Delegate "read8" 6%positive) (Delegate "write8" 6%positive))
           0xFFFFFFFF 16).
  - reflexivity.
  - reflexivity.
  - reflexivity.
  - reflexivity.
  - compute_done.
  - compute_done.
  - lia.
Defined.

Example install_device_24_bit_bus :
  @vme_device.install_device vme_rev_c 2%positive 0x39 0x100 0x1ff
    (handlers_D16 (Delegate "read16" 6%positive) (Delegate "write16" 6%positive)) 0x00FF00FF
    (sample_machine (started_bus 24) 24)
  = Ret tt (registered (sample_machine (started_bus 24) 24) 3%positive (AddressSpace 24 [])
      (Decoder 0x100 0x1ff
         (handlers_D16 (Delegate "read16" 6%positive) (Delegate "write16" 6%positive)) 0x00FF00FF)).
Proof. vm_compute. reflexivity. Qed.

Example install_device_32_bit_bus :
  @vme_device.install_device vme_rev_c 2%positive 0x09 0x100 0x1ff
    (handlers_D32 (Delegate "read32" 6%positive) (Delegate "write32" 6%positive)) 0xFFFFFFFF
    (sample_machine (started_bus 32) 32)
  = Ret tt (registered (sample_machine (started_bus 32) 32) 3%positive (AddressSpace 32 [])
      (Decoder 0x100 0x1ff
         (handlers_D32 (Delegate "read32" 6%positive) (Delegate "write32" 6%positive)) 0xFFFFFFFF)).
Proof. vm_compute. reflexivity. Qed.

Lemma install_device_unsupported_amod_fatal_witness :
  @vme_device.install_device vme_rev_c 2%positive 0x3B 0x100 0x1ff
    (handlers_D8 (Delegate "read8" 6%positive) (Delegate "write8" 6%positive)) 0xFFFFFFFF
    (sample_machine (started_bus 16) 16)
  = Throw (emu_fatalerror "VME D8: Non supported Address modifier: AM%02x\n" [0x3B])
      (sample_machine (started_bus 16) 16).
Proof.
  apply (@install_device_unsupported_amod_fatal vme_rev_c). compute_done.
Defined.

Lemma install_device_unsupported_width_fatal_witness :
  @vme_device.install_device vme_rev_c 2%positive 0x29 0x100 0x1ff
    (handlers_D16 (Delegate "read16" 6%positive) (Delegate "write16" 6%positive)) 0xFFFFFFFF
    (sample_machine (started_bus 8) 8)
  = Throw (emu_fatalerror "VME D16: Bus width %d not supported\n" [8])
      (sample_machine (started_bus 8) 8).
Proof.
  apply (@install_device_unsupported_width_fatal vme_rev_c _ 2%positive (started_bus 8)).
  - reflexivity.
  - reflexivity.
  - compute_done.
  - compute_done.
Defined.

Lemma install_device_amod_checked_first_witness :
  @vme_device.install_device vme_rev_c 2%positive 0x3B 0x100 0x1ff
    (handlers_D32 (Delegate "read32" 6%positive) (Delegate "write32" 6%positive)) 0xFFFFFFFF
    (sample_machine (started_bus 64) 64)
  = Throw (emu_fatalerror "VME D32: Non supported Address modifier: %02x\n" [0x3B])
      (sample_machine (started_bus 64) 64)
  ∧ @vme_device.install_device vme_rev_c 2%positive 0x3B 0x100 0x1ff
      (handlers_D32 (Delegate "read32" 6%positive) (Delegate "write32" 6%positive)) 0xFFFFFFFF
      (sample_machine (started_bus 64) 64)
    ≠ Throw (emu_fatalerror "VME D32: Bus width %d not supported\n" [64])
        (sample_machine (started_bus 64) 64).
Proof.
  apply (@install_device_amod_checked_first vme_rev_c _ 2%positive (started_bus 64)).
  - reflexivity.
  - reflexivity.
  - compute_done.
  - compute_done.
Defined.

(** ** Start-up of the bus *)

Example device_start_own_space :
  vme_device.device_start 2%positive (sample_machine (sample_bus true None None) 32)
  = Ret tt (sample_machine (sample_bus true (Some 3%positive) (Some 32)) 32).
Proof. vm_compute. reflexivity. Qed.

Example device_start_owner_space :
  vme_device.device_start 2%positive (sample_machine (sample_bus false None None) 16)
  = Ret tt (sample_machine
      (with_m_maincpu (Some 4%positive) (sample_bus false (Some 5%positive) (Some 16))) 16).
Proof. vm_compute. reflexivity. Qed.

(** A delegating bus whose owner has no device of the tag m_cputag
    dereferences the null pointer the lookup returns. *)
Lemma device_start_without_cpu (m : running_machine) (this owner : ptr) (v : vme_device) :
  heap m !! this = Some (obj_vme_device v) →
  m_allocspaces v = false →
  m_owner v = Some owner →
  subdevices m !! (owner, m_cputag v) = None →
  vme_device.device_start this m = Undefined.
Proof.
  intros Hthis Halloc Howner Hcpu. unfold vme_device.device_start.
  rewrite (bind_Ret _ _ _ _ _ (LOG_inert _ _)).
  rewrite (bind_Ret _ _ _ _ _ (load_Ret as_vme_device _ _ _ _ Hthis eq_refl)).
  rewrite Halloc, (bind_Ret _ _ _ _ _ (LOG_inert _ _)), Howner.
  cbn [nonnull]. rewrite bind_mret.
  rewrite (bind_Ret _ _ m m None) by (unfold subdevice; by rewrite Hcpu).
  by rewrite (bind_Ret _ _ _ _ _ (assign_Ret _ _ _ _ Hthis)).
Qed.

(** C4: a bus set to use its owner's address spaces, started on a machine
    where the owner has no device tagged "maincpu": device_start throws
    no fatal error; it goes through the null pointer of the lookup, which
    is undefined behaviour. *)
Theorem device_start_missing_cpu_undefined :
  vme_device.device_start 2%positive (machine_without_cpu (sample_bus false None None) 16)
  = Undefined.
Proof.
  by apply (device_start_without_cpu _ _ 1%positive (sample_bus false None None)).
Qed.

(** ** Byte accesses *)

(** C7: the byte read of the slot returns 0 at every offset and the byte
    write of the slot changes nothing, whatever card is plugged: neither
    goes to the card. *)
Theorem slot_byte_access_inert (m : running_machine) (this space : ptr) (offset : offs_t)
    (data mem_mask : Z) :
  vme_slot_device.read8 this space offset mem_mask m = Ret 0 m
  ∧ vme_slot_device.write8 this space offset data mem_mask m = Ret tt m.
Proof. split; reflexivity. Qed.

(** C8: the byte read of the card interface returns 0 at every offset and
    its byte write changes nothing; a card class that overrides neither
    answers a call through the interface with these two. *)
Theorem card_byte_access_defaults (m : running_machine) (this space : ptr) (offset : offs_t)
    (data mem_mask : Z) :
  device_vme_card_interface.read8 this space offset mem_mask m = Ret 0 m
  ∧ device_vme_card_interface.write8 this space offset data mem_mask m = Ret tt m
  ∧ ∀ cls : vme_card_class,
      override_read8 cls = None → override_write8 cls = None →
      card_read8 cls this space offset mem_mask m = Ret 0 m
      ∧ card_write8 cls this space offset data mem_mask m = Ret tt m.
Proof.
  split; [reflexivity|]. split; [reflexivity|].
  intros cls Hread Hwrite. unfold card_read8, card_write8.
  rewrite Hread, Hwrite. split; reflexivity.
Qed.

Lemma card_byte_access_defaults_witness :
  card_read8 (VmeCardClass None None) 6%positive 3%positive 0x10 0xff
    (sample_machine (started_bus 16) 16)
  = Ret 0 (sample_machine (started_bus 16) 16)
  ∧ card_write8 (VmeCardClass None None) 6%positive 3%positive 0x10 0x5a 0xff
      (sample_machine (started_bus 16) 16)
    = Ret tt (sample_machine (started_bus 16) 16).
Proof.
  apply (card_byte_access_defaults (sample_machine (started_bus 16) 16) 6%positive 3%positive
           0x10 0x5a 0xff); reflexivity.
Defined.

(** ** Attaching a card *)

Lemma machine_device_Ret (tag : option string) (m : running_machine) :
  ∃ found, machine_device tag m = Ret found m.
Proof. unfold machine_device, subdevice. destruct tag; eauto. Qed.

Lemma dynamic_cast_Ret {A} (proj : object → option A) (p : option ptr) (m : running_machine) :
  ∃ q, dynamic_cast proj p m = Ret q m.
Proof.
  unfold dynamic_cast. destruct p as [q|]; [|by eauto].
  destruct (heap m !! q) as [o|]; [|by eauto]. destruct (proj o); eauto.
Qed.

Lemma with_m_vme_id (c : device_vme_card_interface) : with_m_vme (m_vme c) c = c.
Proof. by destruct c. Qed.

Lemma store_id (p : ptr) (o : object) (m : running_machine) :
  heap m !! p = Some o →
  Machine (<[p := o]> (heap m)) (subdevices m) (root_device m) (stdout m) = m.
Proof. intros Hp. rewrite insert_id by done. by destruct m. Qed.

(** C6: a card whose bus tag names no bus of the machine (no device, or a
    device that is no vme_device): set_vme_device returns normally, sets
    the bus reference m_vme to null and attaches the card to no bus; the
    machine differs from the one before the call at most in m_vme of
    this card, and for a card whose m_vme was null it is the same
    machine. *)
Theorem set_vme_device_without_bus (m : running_machine) (this : ptr)
    (c : device_vme_card_interface) :
  heap m !! this = Some (obj_vme_card c) →
  (machine_device (m_vme_tag c) ≫= dynamic_cast as_vme_device) m = Ret None m →
  device_vme_card_interface.set_vme_device this m
  = Ret tt (Machine (<[this := obj_vme_card (with_m_vme None c)]> (heap m))
             (subdevices m) (root_device m) (stdout m))
  ∧ (m_vme c = None → device_vme_card_interface.set_vme_device this m = Ret tt m).
Proof.
  intros Hthis Hnone.
  assert (device_vme_card_interface.set_vme_device this m
          = Ret tt (Machine (<[this := obj_vme_card (with_m_vme None c)]> (heap m))
                     (subdevices m) (root_device m) (stdout m))) as Hrun.
  { unfold device_vme_card_interface.set_vme_device.
    rewrite (bind_Ret _ _ _ _ _ (LOG_inert _ _)).
    rewrite (bind_Ret _ _ _ _ _ (load_Ret as_vme_card _ _ _ _ Hthis eq_refl)).
    destruct (machine_device_Ret (m_vme_tag c) m) as [found Hfound].
    rewrite (bind_Ret _ _ _ _ _ Hfound) in Hnone.
    rewrite (bind_Ret _ _ _ _ _ Hfound), (bind_Ret _ _ _ _ _ Hnone).
    by rewrite (bind_Ret _ _ _ _ _ (assign_card_Ret _ _ _ _ Hthis)). }
  split; [done|]. intros Hvme. rewrite Hrun. f_equal.
  apply store_id. by rewrite <- Hvme, with_m_vme_id.
Qed.

Lemma set_vme_device_without_bus_witness :
  device_vme_card_interface.set_vme_device 8%positive (sample_machine (started_bus 16) 16)
  = Ret tt (sample_machine (started_bus 16) 16).
Proof.
  apply (set_vme_device_without_bus (sample_machine (started_bus 16) 16) 8%positive
           (sample_card 8%positive (Some "vme2"))); reflexivity.
Defined.

(** A card whose tag names the bus is attached to it. *)
Example set_vme_device_with_bus :
  ∃ m', device_vme_card_interface.set_vme_device 6%positive (sample_machine (started_bus 16) 16)
        = Ret tt m'
    ∧ heap m' !! 6%positive
      = Some (obj_vme_card (with_m_vme (Some 2%positive) (sample_card 6%positive (Some "vme"))))
    ∧ heap m' !! 2%positive
      = Some (obj_vme_device
          (with_m_device_list (SimpleList (Some 6%positive) (Some 6%positive) 1) (started_bus 16))).
Proof. eexists. split; [vm_compute; reflexivity|]. split; reflexivity. Qed.

(** ** What a call leaves as it is *)

Section respects.
Context (R : relation running_machine) `{!Reflexive R, !Transitive R}.

Lemma respects_of_pure {A} (x : M A) : respects eq x → respects R x.
Proof.
  intros Hx m. specialize (Hx m). destruct (x m); by subst.
Qed.

Lemma respects_bind {A B} (x : M A) (f : A → M B) :
  respects R x → (∀ a, respects R (f a)) → respects R (x ≫= f).
Proof.
  intros Hx Hf m. unfold mbind, M_bind. specialize (Hx m).
  destruct (x m) as [a m'|e m'|]; [|done..].
  specialize (Hf a m'). destruct (f a m'); [by etrans..|done].
Qed.

Lemma respects_mret {A} (a : A) : respects R (mret a).
Proof. intros m. apply reflexivity. Qed.

Lemma respects_throw {A} (e : exception) : respects R (throw (A := A) e).
Proof. intros m. apply reflexivity. Qed.

Lemma respects_fatalerror {A} (format : string) (args : list Z) :
  respects R (fatalerror (A := A) format args).
Proof. apply respects_throw. Qed.

Lemma respects_undefined {A} : respects R (undefined (A := A)).
Proof. done. Qed.

Lemma respects_nonnull (p : option ptr) : respects R (nonnull p).
Proof. destruct p; [apply respects_mret|apply respects_undefined]. Qed.

Lemma respects_assigned {A} (x : option A) : respects R (assigned x).
Proof. destruct x; [apply respects_mret|apply respects_undefined]. Qed.

Lemma respects_pointee {A} (x : option A) : respects R (pointee x).
Proof. destruct x; [apply respects_mret|apply respects_undefined]. Qed.

Lemma respects_load {A} (proj : object → option A) (q : ptr) : respects R (load proj q).
Proof.
  intros m. unfold load. destruct (heap m !! q) as [o|]; [|done].
  destruct (proj o); [apply reflexivity|done].
Qed.

Lemma respects_LOG (format : string) : respects R (LOG format).
Proof. intros m. apply reflexivity. Qed.

Lemma respects_dynamic_cast {A} (proj : object → option A) (p : option ptr) :
  respects R (dynamic_cast proj p).
Proof.
  intros m. destruct (dynamic_cast_Ret proj p m) as [q ->]. apply reflexivity.
Qed.

Lemma respects_subdevice (owner : ptr) (tag : option string) : respects R (subdevice owner tag).
Proof. intros m. unfold subdevice. destruct tag; apply reflexivity. Qed.

Lemma respects_machine_device (tag : option string) : respects R (machine_device tag).
Proof.
  intros m. destruct (machine_device_Ret tag m) as [q ->]. apply reflexivity.
Qed.

Lemma respects_space (this : ptr) (spacenum : address_spacenum) :
  respects R (device_memory_interface.space this spacenum).
Proof.
  intros m. unfold device_memory_interface.space.
  destruct (heap m !! this) as [[]|]; try done; apply respects_nonnull.
Qed.

Lemma respects_space_config (this : ptr) (spacenum : address_spacenum) :
  respects R (device_memory_interface.space_config this spacenum).
Proof.
  apply respects_bind; [apply respects_load|]. intros c. apply respects_mret.
Qed.

Lemma respects_data_width (this : ptr) : respects R (address_space.data_width this).
Proof.
  apply respects_bind; [apply respects_load|]. intros a. apply respects_mret.
Qed.

End respects.

#[local] Instance no_new_delegation_refl : Reflexive no_new_delegation.
Proof. by intros m bus. Qed.

#[local] Instance no_new_delegation_trans : Transitive no_new_delegation.
Proof. intros m1 m2 m3 H12 H23 bus Hbus. by apply H12, H23. Qed.

(** A store delegates no bus unless it writes a delegating bus. *)
Lemma store_no_new_delegation (p : ptr) (o : object) :
  (∀ v, o = obj_vme_device v → m_allocspaces v = true) →
  respects no_new_delegation (store p o).
Proof.
  intros Ho m bus (v & Hbus & Hv). cbn in Hbus.
  destruct (decide (p = bus)) as [->|Hne].
  - rewrite lookup_insert_eq in Hbus. injection Hbus as ->.
    rewrite (Ho v eq_refl) in Hv. done.
  - rewrite lookup_insert_ne in Hbus by done. by exists v.
Qed.

Lemma construct_no_new_delegation (this : ptr) (o : object) :
  (∀ v, o = obj_vme_device v → m_allocspaces v = true) →
  respects no_new_delegation (construct this o).
Proof.
  intros Ho m. unfold construct.
  destruct (heap m !! this); [done|]. by apply store_no_new_delegation.
Qed.

Lemma assign_no_new_delegation (this : ptr) (f : vme_device → vme_device) :
  (∀ v, m_allocspaces (f v) = m_allocspaces v) →
  respects no_new_delegation (assign this f).
Proof.
  intros Hf m. unfold assign, mbind, M_bind, load.
  destruct (heap m !! this) as [o|] eqn:Hthis; [|done].
  destruct o as [|v| | | |]; try done. cbn.
  intros bus (v' & Hbus & Hv'). cbn in Hbus.
  destruct (decide (this = bus)) as [->|Hne].
  - rewrite lookup_insert_eq in Hbus. injection Hbus as <-.
    exists v. by rewrite <- Hf.
  - rewrite lookup_insert_ne in Hbus by done. by exists v'.
Qed.

Lemma destroy_no_new_delegation {A} (proj : object → option A) (this : ptr) :
  respects no_new_delegation (destroy proj this).
Proof.
  intros m. unfold destroy. destruct (heap m !! this) as [o|]; [|done].
  destruct (proj o); [|done]. intros bus (v & Hbus & Hv). cbn in Hbus.
  apply lookup_delete_Some in Hbus as [_ Hbus]. by exists v.
Qed.

Lemma assign_card_no_new_delegation (this : ptr)
    (f : device_vme_card_interface → device_vme_card_interface) :
  respects no_new_delegation (assign_card this f).
Proof.
  apply respects_bind; [apply _|apply respects_load; apply _|].
  intros c. by apply store_no_new_delegation.
Qed.

Ltac respects_step :=
  lazymatch goal with
  | |- respects _ (_ ≫= _) => apply respects_bind; [apply _| |intros ?]
  | |- respects _ (mret _) => apply respects_mret; apply _
  | |- respects _ (LOG _) => apply respects_LOG; apply _
  | |- respects _ (fatalerror _ _) => apply respects_fatalerror; apply _
  | |- respects _ (throw _) => apply respects_throw; apply _
  | |- respects _ (nonnull _) => apply respects_nonnull; apply _
  | |- respects _ (assigned _) => apply respects_assigned; apply _
  | |- respects _ (pointee _) => apply respects_pointee; apply _
  | |- respects _ (load _ _) => apply respects_load; apply _
  | |- respects _ (dynamic_cast _ _) => apply respects_dynamic_cast; apply _
  | |- respects _ (subdevice _ _) => apply respects_subdevice; apply _
  | |- respects _ (machine_device _) => apply respects_machine_device; apply _
  | |- respects _ (device_memory_interface.space _ _) => apply respects_space; apply _
  | |- respects _ (device_memory_interface.space_config _ _) =>
      apply respects_space_config; apply _
  | |- respects _ (address_space.data_width _) => apply respects_data_width; apply _
  | |- respects no_new_delegation (assign_card _ _) => apply assign_card_no_new_delegation
  | |- respects no_new_delegation (destroy _ _) => apply destroy_no_new_delegation
  | |- respects no_new_delegation (assign _ _) =>
      apply assign_no_new_delegation; intros []; reflexivity
  | |- respects no_new_delegation (store _ _) =>
      apply store_no_new_delegation; intros ? [=]; subst; reflexivity
  | |- respects no_new_delegation (construct _ _) =>
      apply construct_no_new_delegation; intros ? [=]; subst; reflexivity
  | |- respects no_new_delegation (vme_device.add_vme_card _ _) =>
      unfold vme_device.add_vme_card, simple_list.append
  | |- respects no_new_delegation (device_vme_card_interface.static_set_vme_tag _ _ _) =>
      unfold device_vme_card_interface.static_set_vme_tag
  | |- respects _ (if ?b then _ else _) => destruct b
  | |- respects _ (match ?x with _ => _ end) => destruct x
  end.

Ltac respects_auto := repeat respects_step.

Lemma add_vme_card_no_new_delegation (this : ptr) (card : option ptr) :
  respects no_new_delegation (vme_device.add_vme_card this card).
Proof.
  respects_auto.
Qed.

Lemma install_device_no_new_delegation `{vme_amod_enum} (this : ptr) (amod : vme_amod_t)
    (start end_ : offs_t) (h : handler_pair) (mask : Z) :
  respects no_new_delegation (vme_device.install_device this amod start end_ h mask).
Proof.
  destruct h; cbn [vme_device.install_device].
  all: unfold vme_device.install_device_D8, vme_device.install_device_D16,
    vme_device.install_device_D32, address_space.install_readwrite_handler.
  all: respects_auto.
Qed.

Lemma run_no_new_delegation `{vme_amod_enum} (c : call) :
  (∀ device, c ≠ call_vme_static_use_owner_spaces device) →
  respects no_new_delegation (run c).
Proof.
  intros Hc. destruct c; cbn [run].
  2: { by destruct (Hc device). }
  all: try apply add_vme_card_no_new_delegation.
  all: try apply install_device_no_new_delegation.
  all: unfold vme_device.static_set_cputag, vme_device.ctor, vme_device.ctor_typed,
    vme_device.dtor, vme_device.dtor_body, vme_device.device_start, vme_device.device_reset,
    device_vme_card_interface.ctor, device_vme_card_interface.dtor,
    device_vme_card_interface.static_set_vme_tag, device_vme_card_interface.set_vme_device,
    device_vme_card_interface.read8, device_vme_card_interface.write8,
    vme_slot_device.ctor, vme_slot_device.static_update_vme_chains,
    vme_slot_device.static_set_vme_slot, vme_slot_device.device_start,
    vme_slot_device.device_config_complete, vme_slot_device.read8, vme_slot_device.write8.
  all: respects_auto.
Qed.

(** C10: each constructor makes a bus that owns its address space, with
    the processor tag "maincpu"; static_use_owner_spaces clears
    m_allocspaces of its bus and changes nothing else of the machine; and
    after any other member function of the file a bus delegates only if
    it delegated before the call. *)
Theorem bus_delegation_only_on_request `{vme_amod_enum} :
  (∀ m this tag owner clock,
     heap m !! this = None →
     ∃ m' v, vme_device.ctor this tag owner clock m = Ret tt m'
       ∧ heap m' !! this = Some (obj_vme_device v)
       ∧ m_allocspaces v = true ∧ m_cputag v = "maincpu")
  ∧ (∀ m this name tag owner clock shortname,
     heap m !! this = None →
     ∃ m' v, vme_device.ctor_typed this name tag owner clock shortname m = Ret tt m'
       ∧ heap m' !! this = Some (obj_vme_device v)
       ∧ m_allocspaces v = true ∧ m_cputag v = "maincpu")
  ∧ (∀ m device v,
     heap m !! device = Some (obj_vme_device v) →
     vme_device.static_use_owner_spaces device m
     = Ret tt (Machine
         (<[device := obj_vme_device
              (VmeDevice (m_name v) (m_shortname v) (m_tag v) (m_owner v) (m_clock v)
                 (m_addrspace v) (m_a32_config v) false (m_cputag v) (m_maincpu v)
                 (m_prgspace v) (m_prgwidth v) (m_device_list v))]> (heap m))
         (subdevices m) (root_device m) (stdout m)))
  ∧ (∀ c, (∀ device, c ≠ call_vme_static_use_owner_spaces device) →
     respects no_new_delegation (run c)).
Proof.
  split; [|split; [|split]].
  - intros m this tag owner clock Hfresh.
    unfold vme_device.ctor, mbind, M_bind, construct. rewrite Hfresh.
    eexists _, _. split; [reflexivity|]. cbn. by rewrite lookup_insert_eq.
  - intros m this name tag owner clock shortname Hfresh.
    unfold vme_device.ctor_typed, mbind, M_bind, construct. rewrite Hfresh.
    eexists _, _. split; [reflexivity|]. cbn. by rewrite lookup_insert_eq.
  - intros m device v Hdevice. unfold vme_device.static_use_owner_spaces.
    rewrite (bind_Ret _ _ _ _ _ (LOG_inert _ _)).
    by rewrite (assign_Ret _ _ _ _ Hdevice).
  - apply run_no_new_delegation.
Qed.

Lemma bus_delegation_only_on_request_witness :
  (∃ m' v, vme_device.ctor 9%positive "vme" (Some 1%positive) 0
             (sample_machine (started_bus 16) 16) = Ret tt m'
     ∧ heap m' !! 9%positive = Some (obj_vme_device v)
     ∧ m_allocspaces v = true ∧ m_cputag v = "maincpu")
  ∧ vme_device.static_use_owner_spaces 2%positive (sample_machine (sample_bus true None None) 16)
    = Ret tt (sample_machine (sample_bus false None None) 16)
  ∧ respects no_new_delegation (@run vme_rev_c (call_vme_static_set_cputag 2%positive "cpu")).
Proof.
  destruct (@bus_delegation_only_on_request vme_rev_c) as (Hctor & _ & Huse & Honly).
  split; [|split].
  - apply Hctor. reflexivity.
  - apply (Huse (sample_machine (sample_bus true None None) 16) 2%positive
             (sample_bus true None None)). reflexivity.
  - apply Honly. intros device. discriminate.
Defined.


(** ** The card list *)

Lemma is_card_insert (h : gmap ptr object) (q p : ptr) (c : device_vme_card_interface) :
  is_card h p → is_card (<[q := obj_vme_card c]> h) p.
Proof.
  intros [c' Hp]. destruct (decide (q = p)) as [->|Hne].
  - exists c. by rewrite lookup_insert_eq.
  - exists c'. by rewrite lookup_insert_ne.
Qed.

Lemma lseg_insert_notin (h : gmap ptr object) (q : ptr) (o : object) (l : list ptr)
    (a b : option ptr) :
  q ∉ l → lseg h a l b → lseg (<[q := o]> h) a l b.
Proof.
  revert a. induction l as [|x l IH]; intros a Hq; cbn; [done|].
  apply not_elem_of_cons in Hq as [Hqx Hql].
  intros (-> & c & Hx & Hrest). split; [done|]. exists c.
  rewrite lookup_insert_ne by done. split; [done|]. by apply IH.
Qed.

Lemma lseg_snoc (h : gmap ptr object) (l : list ptr) (t : ptr) (a b : option ptr) :
  lseg h a (l ++ [t]) b
  ↔ lseg h a l (Some t) ∧ ∃ c, h !! t = Some (obj_vme_card c) ∧ m_next c = b.
Proof.
  revert a. induction l as [|x l IH]; intros a; cbn.
  - split.
    + intros (-> & c & Ht & Hb). eauto.
    + intros (-> & c & Ht & Hb). eauto.
  - split.
    + intros (-> & c & Hx & Hrest). apply IH in Hrest as [Hl Ht]. eauto 10.
    + intros ((-> & c & Hx & Hl) & Ht). split; [done|]. exists c. split; [done|].
      apply IH. eauto.
Qed.


Lemma lseg_cards (h : gmap ptr object) (l : list ptr) (a b : option ptr) (x : ptr) :
  lseg h a l b → x ∈ l → is_card h x.
Proof.
  revert a. induction l as [|y l IH]; intros a; cbn.
  - intros _ Hx. by apply elem_of_nil in Hx.
  - intros (-> & c & Hy & Hrest) Hx. apply elem_of_cons in Hx as [->|Hx].
    + by exists c.
    + by apply (IH (m_next c)).
Qed.

Lemma add_vme_card_step (m : running_machine) (bus card : ptr) (n : Z) :
  counts m bus n → is_card (heap m) card →
  ∃ m', vme_device.add_vme_card bus (Some card) m = Ret tt m'
    ∧ counts m' bus (n + 1)
    ∧ (∀ p, is_card (heap m) p → is_card (heap m') p)
    ∧ (∀ l, NoDup l → card ∉ l → chains m bus l → chains m' bus (l ++ [card])).
Proof.
  intros (v & Hbus & Hn & Htail) [c Hcard].
  assert (bus ≠ card) as Hbc by congruence.
  unfold vme_device.add_vme_card.
  rewrite (bind_Ret _ _ _ _ _ (LOG_inert _ _)).
  rewrite (bind_Ret _ _ _ _ _ (load_Ret as_vme_device _ _ _ _ Hbus eq_refl)).
  cbn [nonnull]. rewrite bind_mret. unfold simple_list.append.
  destruct (m_tail (m_device_list v)) as [t|] eqn:Ht.
  - destruct (is_card_insert _ card _ (with_m_next None c) Htail) as [ct1 Hct1].
    assert (bus ≠ t) as Hbt by (destruct Htail; congruence).
    set (m1 := Machine (<[card := obj_vme_card (with_m_next None c)]> (heap m))
                 (subdevices m) (root_device m) (stdout m)).
    set (m2 := Machine (<[t := obj_vme_card (with_m_next (Some card) ct1)]> (heap m1))
                 (subdevices m) (root_device m) (stdout m)).
    set (l' := SimpleList (m_head (m_device_list v)) (Some card) (m_count (m_device_list v) + 1)).
    assert (heap m2 !! bus = Some (obj_vme_device v)) as Hbus2.
    { cbn. by rewrite !lookup_insert_ne. }
    assert (heap m2 !! card = Some (obj_vme_card (with_m_next None c)) ∨ t = card) as Hcard2.
    { destruct (decide (t = card)) as [->|Hne]; [by right|left].
      cbn. by rewrite lookup_insert_ne, lookup_insert_eq. }
    assert (is_card (heap m2) card) as Hlive2.
    { apply is_card_insert, is_card_insert. by exists c. }
    eexists. split.
    { rewrite (bind_Ret _ _ m m2 l').
      - apply (assign_Ret _ _ _ _ Hbus2).
      - rewrite (bind_Ret _ _ _ _ _ (assign_card_Ret _ _ _ _ Hcard)).
        by rewrite (bind_Ret _ _ _ _ _ (assign_card_Ret _ _ _ m1 Hct1)). }
    cbn [heap]. split; [|split].
    + eexists. split; [apply lookup_insert_eq|]. split; [cbn; lia|]. cbn.
      destruct Hlive2 as [c2 Hc2]. exists c2. by rewrite lookup_insert_ne.
    + intros p [cp Hp]. assert (bus ≠ p) by congruence.
      destruct (is_card_insert _ t _ (with_m_next (Some card) ct1)
                  (is_card_insert _ card _ (with_m_next None c) (ex_intro _ cp Hp))) as [cp' Hp'].
      exists cp'. by rewrite lookup_insert_ne.
    + intros l Hnodup Hnotin (v0 & Hbus0 & Hseg & Hlast).
      rewrite Hbus in Hbus0. injection Hbus0 as <-.
      rewrite Ht in Hlast. symmetry in Hlast. apply last_Some in Hlast as [k ->].
      apply not_elem_of_app in Hnotin as [Hck Hct]. rewrite list_elem_of_singleton in Hct.
      apply NoDup_app in Hnodup as (_ & Hkt & _).
      assert (t ∉ k) as Htk. { intros Hin. apply (Hkt t Hin). by apply list_elem_of_singleton. }
      apply lseg_snoc in Hseg as (Hseg & ct & Hct0 & Hnext).
      assert (bus ∉ k) as Hbk.
      { intros Hin. destruct (lseg_cards _ _ _ _ _ Hseg Hin). congruence. }
      destruct Hcard2 as [Hcard2|Heq]; [|by subst].
      eexists. split; [apply lookup_insert_eq|]. cbn. split; [|by rewrite last_snoc].
      apply lseg_snoc. split; [apply lseg_snoc; split|].
      * by repeat (apply lseg_insert_notin; [done|]).
      * eexists. rewrite lookup_insert_ne, lookup_insert_eq by done. done.
      * eexists. rewrite lookup_insert_ne by done. done.
  - set (m1 := Machine (<[card := obj_vme_card (with_m_next None c)]> (heap m))
                 (subdevices m) (root_device m) (stdout m)).
    set (l' := SimpleList (Some card) (Some card) (m_count (m_device_list v) + 1)).
    assert (heap m1 !! bus = Some (obj_vme_device v)) as Hbus1.
    { cbn. by rewrite lookup_insert_ne. }
    eexists. split.
    { rewrite (bind_Ret _ _ m m1 l').
      - apply (assign_Ret _ _ _ _ Hbus1).
      - by rewrite (bind_Ret _ _ _ _ _ (assign_card_Ret _ _ _ _ Hcard)). }
    cbn [heap]. split; [|split].
    + eexists. split; [apply lookup_insert_eq|]. split; [cbn; lia|]. cbn.
      eexists. by rewrite lookup_insert_ne, lookup_insert_eq.
    + intros p [cp Hp]. assert (bus ≠ p) by congruence.
      destruct (is_card_insert _ card _ (with_m_next None c) (ex_intro _ cp Hp)) as [cp' Hp'].
      exists cp'. by rewrite lookup_insert_ne.
    + intros l _ _ (v0 & Hbus0 & Hseg & Hlast).
      rewrite Hbus in Hbus0. injection Hbus0 as <-.
      rewrite Ht in Hlast. symmetry in Hlast. apply last_None in Hlast as ->.
      eexists. split; [apply lookup_insert_eq|]. cbn. split; [|done]. split; [done|].
      eexists. by rewrite lookup_insert_ne, lookup_insert_eq.
Qed.


Lemma dtor_body_Ret (m : running_machine) (this : ptr) (v : vme_device) :
  heap m !! this = Some (obj_vme_device v) →
  vme_device.dtor_body this m
  = Ret tt (Machine
      (<[this := obj_vme_device
           (with_m_device_list (simple_list.detach_all (m_device_list v)) v)]> (heap m))
      (subdevices m) (root_device m) (stdout m)).
Proof.
  intros Hthis. unfold vme_device.dtor_body.
  rewrite (bind_Ret _ _ _ _ _ (LOG_inert _ _)). apply (assign_Ret _ _ _ _ Hthis).
Qed.

Lemma dtor_Ret (m : running_machine) (this : ptr) (v : vme_device) :
  heap m !! this = Some (obj_vme_device v) →
  vme_device.dtor this m
  = Ret tt (Machine (delete this (heap m)) (subdevices m) (root_device m) (stdout m)).
Proof.
  intros Hthis. unfold vme_device.dtor.
  rewrite (bind_Ret _ _ _ _ _ (dtor_body_Ret _ _ _ Hthis)).
  unfold destroy. cbn. rewrite lookup_insert_eq. cbn. by rewrite delete_insert_eq.
Qed.





Example attach_three_cards_then_teardown :
  match attach_cards 2%positive [7%positive; 6%positive; 8%positive]
          (sample_machine (sample_bus true None None) 16) with
  | Ret _ m1 =>
      simple_list.walk 3 (heap m1) (Some 7%positive) = Some [7%positive; 6%positive; 8%positive]
      ∧ match vme_device.dtor 2%positive m1 with
        | Ret _ m2 =>
            heap m2 !! 2%positive = None
            ∧ heap m2 !! 6%positive = heap m1 !! 6%positive
        | _ => False
        end
  | _ => False
  end.
Proof. vm_compute. split; [reflexivity|]. split; reflexivity. Qed.

(** A member function called on the bus after its destructor meets no
    object. *)
Example add_vme_card_after_destructor :
  (vme_device.dtor 2%positive;; vme_device.add_vme_card 2%positive (Some 6%positive))
    (sample_machine (sample_bus true None None) 16) = Undefined.
Proof. vm_compute. reflexivity. Qed.

(** * Further properties of the code *)

(** ** Start-up, and installation after it *)

Lemma space_of_bus_Ret (m : running_machine) (this sp : ptr) (v : vme_device) :
  heap m !! this = Some (obj_vme_device v) →
  m_addrspace v = Some sp →
  device_memory_interface.space this AS_PROGRAM m = Ret sp m.
Proof. intros Hthis Hsp. unfold device_memory_interface.space. by rewrite Hthis, Hsp. Qed.

Lemma space_of_cpu_Ret (m : running_machine) (cpu sp : ptr) (c : cpu_device) :
  heap m !! cpu = Some (obj_cpu_device c) →
  cpu_space c = Some sp →
  device_memory_interface.space cpu AS_PROGRAM m = Ret sp m.
Proof. intros Hcpu Hsp. unfold device_memory_interface.space. by rewrite Hcpu, Hsp. Qed.

Lemma device_start_own_Ret (m : running_machine) (this sp : ptr) (v : vme_device)
    (a : address_space) :
  heap m !! this = Some (obj_vme_device v) →
  m_allocspaces v = true →
  m_addrspace v = Some sp →
  heap m !! sp = Some (obj_address_space a) →
  vme_device.device_start this m
  = Ret tt (Machine
      (<[this := obj_vme_device
           (with_m_prgwidth (Some (as_data_width a)) (with_m_prgspace (Some sp) v))]> (heap m))
      (subdevices m) (root_device m) (stdout m)).
Proof.
  intros Hthis Halloc Haddr Hsp. assert (this ≠ sp) as Hne by congruence.
  unfold vme_device.device_start.
  rewrite (bind_Ret _ _ _ _ _ (LOG_inert _ _)).
  rewrite (bind_Ret _ _ _ _ _ (load_Ret as_vme_device _ _ _ _ Hthis eq_refl)).
  rewrite Halloc, (bind_Ret _ _ _ _ _ (LOG_inert _ _)).
  rewrite (bind_Ret _ _ _ _ _ (space_of_bus_Ret _ _ _ _ Hthis Haddr)).
  rewrite (bind_Ret _ _ _ _ _ (assign_Ret _ _ _ _ Hthis)).
  set (m1 := Machine (<[this := obj_vme_device (with_m_prgspace (Some sp) v)]> (heap m))
               (subdevices m) (root_device m) (stdout m)).
  assert (heap m1 !! sp = Some (obj_address_space a)) as Hsp1
    by (cbn; by rewrite lookup_insert_ne).
  assert (heap m1 !! this = Some (obj_vme_device (with_m_prgspace (Some sp) v))) as Hthis1
    by (cbn; by rewrite lookup_insert_eq).
  unfold address_space.data_width.
  rewrite (bind_Ret _ _ m1 m1 (as_data_width a))
    by (by rewrite (bind_Ret _ _ _ _ _ (load_Ret as_address_space _ _ _ _ Hsp1 eq_refl))).
  rewrite (bind_Ret _ _ _ _ _ (assign_Ret _ _ _ _ Hthis1)).
  rewrite LOG_inert. cbn. by rewrite insert_insert_eq.
Qed.

Lemma device_start_owner_Ret (m : running_machine) (this owner cpu sp : ptr) (v : vme_device)
    (c : cpu_device) (config : address_space_config) :
  heap m !! this = Some (obj_vme_device v) →
  m_allocspaces v = false →
  m_owner v = Some owner →
  subdevices m !! (owner, m_cputag v) = Some cpu →
  heap m !! cpu = Some (obj_cpu_device c) →
  cpu_space c = Some sp →
  cpu_space_config c = Some config →
  vme_device.device_start this m
  = Ret tt (Machine
      (<[this := obj_vme_device
           (with_m_prgwidth (Some (m_databus_width config))
              (with_m_prgspace (Some sp) (with_m_maincpu (Some cpu) v)))]> (heap m))
      (subdevices m) (root_device m) (stdout m)).
Proof.
  intros Hthis Halloc Howner Hsub Hcpu Hsp Hconfig. assert (this ≠ cpu) as Hne by congruence.
  unfold vme_device.device_start.
  rewrite (bind_Ret _ _ _ _ _ (LOG_inert _ _)).
  rewrite (bind_Ret _ _ _ _ _ (load_Ret as_vme_device _ _ _ _ Hthis eq_refl)).
  rewrite Halloc, (bind_Ret _ _ _ _ _ (LOG_inert _ _)), Howner.
  cbn [nonnull]. rewrite bind_mret.
  rewrite (bind_Ret _ _ m m (Some cpu)) by (unfold subdevice; by rewrite Hsub).
  rewrite (bind_Ret _ _ _ _ _ (assign_Ret _ _ _ _ Hthis)).
  set (m1 := Machine (<[this := obj_vme_device (with_m_maincpu (Some cpu) v)]> (heap m))
               (subdevices m) (root_device m) (stdout m)).
  assert (heap m1 !! cpu = Some (obj_cpu_device c)) as Hcpu1
    by (cbn; by rewrite lookup_insert_ne).
  assert (heap m1 !! this = Some (obj_vme_device (with_m_maincpu (Some cpu) v))) as Hthis1
    by (cbn; by rewrite lookup_insert_eq).
  cbn [nonnull]. rewrite bind_mret.
  rewrite (bind_Ret _ _ _ _ _ (space_of_cpu_Ret _ _ _ _ Hcpu1 Hsp)).
  rewrite (bind_Ret _ _ _ _ _ (assign_Ret _ _ _ _ Hthis1)).
  set (m2 := Machine
               (<[this := obj_vme_device (with_m_prgspace (Some sp) (with_m_maincpu (Some cpu) v))]>
                  (heap m1))
               (subdevices m1) (root_device m1) (stdout m1)).
  assert (heap m2 !! cpu = Some (obj_cpu_device c)) as Hcpu2
    by (cbn; by rewrite !lookup_insert_ne).
  assert (heap m2 !! this
          = Some (obj_vme_device (with_m_prgspace (Some sp) (with_m_maincpu (Some cpu) v))))
    as Hthis2 by (cbn; by rewrite lookup_insert_eq).
  rewrite bind_mret. unfold device_memory_interface.space_config.
  rewrite (bind_Ret _ _ m2 m2 (Some config))
    by (rewrite (bind_Ret _ _ _ _ _ (load_Ret as_cpu_device _ _ _ _ Hcpu2 eq_refl));
        by rewrite Hconfig).
  cbn [pointee]. rewrite bind_mret.
  rewrite (bind_Ret _ _ _ _ _ (assign_Ret _ _ _ _ Hthis2)).
  rewrite LOG_inert. cbn. by rewrite !insert_insert_eq.
Qed.

Lemma install_device_Ret `{vme_amod_enum} (m : running_machine) (this prgspace : ptr)
    (v : vme_device) (a : address_space) (amod : vme_amod_t) (start end_ : offs_t)
    (h : handler_pair) (mask W : Z) :
  heap m !! this = Some (obj_vme_device v) →
  m_prgwidth v = Some W →
  m_prgspace v = Some prgspace →
  heap m !! prgspace = Some (obj_address_space a) →
  amod ∈ [A16_SC; A24_SC; A32_SC] →
  W ∈ [16; 24; 32] →
  0 ≤ mask < 2 ^ 32 →
  vme_device.install_device this amod start end_ h mask m
  = Ret tt (registered m prgspace a (Decoder start end_ h (Z.land mask (Z.shiftl 1 W - 1)))).
Proof.
  intros Hthis Hwidth Hprg Hspace Hamod HW Hmask.
  rewrite !elem_of_cons, elem_of_nil in HW.
  destruct h; cbn [vme_device.install_device];
    unfold vme_device.install_device_D8, vme_device.install_device_D16,
      vme_device.install_device_D32;
    rewrite (bind_Ret _ _ _ _ _ (LOG_inert _ _)), (bind_Ret _ _ _ _ _ (LOG_inert _ _)),
      (bind_Ret _ _ _ _ _ (amod_check_passes _ _ _ Hamod)),
      (bind_Ret _ _ _ _ _ (load_Ret as_vme_device _ _ _ _ Hthis eq_refl)),
      Hwidth, Hprg;
    cbn [assigned nonnull]; rewrite bind_mret;
    destruct HW as [-> | [-> | [-> | []]]];
    repeat case_bool_decide; try done;
    rewrite bind_mret, (install_readwrite_handler_Ret _ _ _ _ _ _ _ Hspace),
      ?narrow_16, ?narrow_24; try done;
    by rewrite <- narrow_32.
Qed.

(** X1: a bus that owns its address space starts by taking its own
    program space and the native width of that space; device_start
    assigns m_prgspace and m_prgwidth and nothing else. *)
Theorem device_start_own_space_resolves (m : running_machine) (this sp : ptr) (v : vme_device)
    (a : address_space) :
  heap m !! this = Some (obj_vme_device v) →
  m_allocspaces v = true →
  m_addrspace v = Some sp →
  heap m !! sp = Some (obj_address_space a) →
  vme_device.device_start this m
  = Ret tt (Machine
      (<[this := obj_vme_device
           (VmeDevice (m_name v) (m_shortname v) (m_tag v) (m_owner v) (m_clock v)
              (m_addrspace v) (m_a32_config v) (m_allocspaces v) (m_cputag v) (m_maincpu v)
              (Some sp) (Some (as_data_width a)) (m_device_list v))]> (heap m))
      (subdevices m) (root_device m) (stdout m)).
Proof. apply device_start_own_Ret. Qed.

Lemma device_start_own_space_resolves_witness :
  vme_device.device_start 2%positive (sample_machine (sample_bus true None None) 24)
  = Ret tt (sample_machine (sample_bus true (Some 3%positive) (Some 24)) 24).
Proof.
  rewrite (device_start_own_space_resolves (sample_machine (sample_bus true None None) 24)
             2%positive 3%positive (sample_bus true None None) (AddressSpace 24 []));
    reflexivity.
Defined.

(** X2: a bus that uses its owner's spaces starts by looking up the
    processor tagged m_cputag below its owner; it keeps the processor, the
    processor's program space, and as width the data bus width of the
    processor's space configuration, and assigns nothing else. *)
Theorem device_start_owner_space_resolves (m : running_machine) (this owner cpu sp : ptr)
    (v : vme_device) (c : cpu_device) (config : address_space_config) :
  heap m !! this = Some (obj_vme_device v) →
  m_allocspaces v = false →
  m_owner v = Some owner →
  subdevices m !! (owner, m_cputag v) = Some cpu →
  heap m !! cpu = Some (obj_cpu_device c) →
  cpu_space c = Some sp →
  cpu_space_config c = Some config →
  vme_device.device_start this m
  = Ret tt (Machine
      (<[this := obj_vme_device
           (VmeDevice (m_name v) (m_shortname v) (m_tag v) (m_owner v) (m_clock v)
              (m_addrspace v) (m_a32_config v) (m_allocspaces v) (m_cputag v) (Some cpu)
              (Some sp) (Some (m_databus_width config)) (m_device_list v))]> (heap m))
      (subdevices m) (root_device m) (stdout m)).
Proof. apply device_start_owner_Ret. Qed.

Lemma device_start_owner_space_resolves_witness :
  vme_device.device_start 2%positive (sample_machine (sample_bus false None None) 16)
  = Ret tt (sample_machine
      (with_m_maincpu (Some 4%positive) (sample_bus false (Some 5%positive) (Some 16))) 16).
Proof.
  rewrite (device_start_owner_space_resolves (sample_machine (sample_bus false None None) 16)
             2%positive 1%positive 4%positive 5%positive (sample_bus false None None)
             (CpuDevice (Some 5%positive)
                (Some (AddressSpaceConfig "program" ENDIANNESS_BIG 16 32 0 None)))
             (AddressSpaceConfig "program" ENDIANNESS_BIG 16 32 0 None));
    reflexivity.
Defined.

(** X3: start-up and then an installation, on a bus that owns its
    space: with a space of width 16, 24 or 32 and a supported modifier the
    two calls return normally, and the decoder is entered into the bus's
    own space under the mask narrowed to the width of that space. *)
Theorem start_then_install_own_space `{vme_amod_enum} (m : running_machine) (this sp : ptr)
    (v : vme_device) (a : address_space) (amod : vme_amod_t) (start end_ : offs_t)
    (h : handler_pair) (mask : Z) :
  heap m !! this = Some (obj_vme_device v) →
  m_allocspaces v = true →
  m_addrspace v = Some sp →
  heap m !! sp = Some (obj_address_space a) →
  as_data_width a ∈ [16; 24; 32] →
  amod ∈ [A16_SC; A24_SC; A32_SC] →
  0 ≤ mask < 2 ^ 32 →
  (vme_device.device_start this;; vme_device.install_device this amod start end_ h mask) m
  = Ret tt (Machine
      (<[sp := obj_address_space
           (AddressSpace (as_data_width a)
              (as_decoders a
                 ++ [Decoder start end_ h (Z.land mask (Z.shiftl 1 (as_data_width a) - 1))]))]>
         (<[this := obj_vme_device
              (with_m_prgwidth (Some (as_data_width a)) (with_m_prgspace (Some sp) v))]> (heap m)))
      (subdevices m) (root_device m) (stdout m)).
Proof.
  intros Hthis Halloc Haddr Hsp Hwidth Hamod Hmask. assert (this ≠ sp) as Hne by congruence.
  rewrite (bind_Ret _ _ _ _ _ (device_start_own_Ret _ _ _ _ _ Hthis Halloc Haddr Hsp)).
  set (m1 := Machine _ _ _ _).
  rewrite (install_device_Ret m1 this sp
             (with_m_prgwidth (Some (as_data_width a)) (with_m_prgspace (Some sp) v)) a
             amod start end_ h mask (as_data_width a)); try done.
  - cbn. by rewrite lookup_insert_eq.
  - cbn. by rewrite lookup_insert_ne.
Qed.

Lemma start_then_install_own_space_witness :
  (vme_device.device_start 2%positive;;
   @vme_device.install_device vme_rev_c 2%positive 0x39 0x2000 0x20ff
     (handlers_D16 (Delegate "read16" 6%positive) (Delegate "write16" 6%positive)) 0xFFFFFFFF)
    (sample_machine (sample_bus true None None) 24)
  = Ret tt (registered (sample_machine (started_bus 24) 24) 3%positive (AddressSpace 24 [])
      (Decoder 0x2000 0x20ff
         (handlers_D16 (Delegate "read16" 6%positive) (Delegate "write16" 6%positive))
         0x00FFFFFF)).
Proof.
  rewrite (@start_then_install_own_space vme_rev_c
             (sample_machine (sample_bus true None None) 24) 2%positive 3%positive
             (sample_bus true None None) (AddressSpace 24 [])).
  - vm_compute. reflexivity.
  - reflexivity.
  - reflexivity.
  - reflexivity.
  - reflexivity.
  - compute_done.
  - compute_done.
  - lia.
Defined.

(** X4: start-up and then an installation, on a bus that uses its owner's
    spaces: the decoder is entered into the program space of the
    processor, under the mask narrowed to the data bus width of the
    processor's configuration; the space of the bus itself is not
    touched. *)
Theorem start_then_install_owner_space `{vme_amod_enum} (m : running_machine)
    (this owner cpu sp : ptr) (v : vme_device) (c : cpu_device) (config : address_space_config)
    (a : address_space) (amod : vme_amod_t) (start end_ : offs_t) (h : handler_pair) (mask : Z) :
  heap m !! this = Some (obj_vme_device v) →
  m_allocspaces v = false →
  m_owner v = Some owner →
  subdevices m !! (owner, m_cputag v) = Some cpu →
  heap m !! cpu = Some (obj_cpu_device c) →
  cpu_space c = Some sp →
  cpu_space_config c = Some config →
  heap m !! sp = Some (obj_address_space a) →
  m_databus_width config ∈ [16; 24; 32] →
  amod ∈ [A16_SC; A24_SC; A32_SC] →
  0 ≤ mask < 2 ^ 32 →
  ∃ m', (vme_device.device_start this;;
         vme_device.install_device this amod start end_ h mask) m = Ret tt m'
    ∧ heap m' !! sp
      = Some (obj_address_space
          (AddressSpace (as_data_width a)
             (as_decoders a
                ++ [Decoder start end_ h
                      (Z.land mask (Z.shiftl 1 (m_databus_width config) - 1))])))
    ∧ ∀ p, p ≠ sp → p ≠ this → heap m' !! p = heap m !! p.
Proof.
  intros Hthis Halloc Howner Hsub Hcpu Hsp Hconfig Hspace Hwidth Hamod Hmask.
  assert (this ≠ sp) as Hne by congruence.
  rewrite (bind_Ret _ _ _ _ _
             (device_start_owner_Ret _ _ _ _ _ _ _ _ Hthis Halloc Howner Hsub Hcpu Hsp Hconfig)).
  set (m1 := Machine _ _ _ _).
  rewrite (install_device_Ret m1 this sp
             (with_m_prgwidth (Some (m_databus_width config))
                (with_m_prgspace (Some sp) (with_m_maincpu (Some cpu) v))) a
             amod start end_ h mask (m_databus_width config)); try done.
  - eexists. split; [reflexivity|]. cbn. split; [by rewrite lookup_insert_eq|].
    intros p Hp1 Hp2. by rewrite !lookup_insert_ne.
  - cbn. by rewrite lookup_insert_eq.
  - cbn. by rewrite lookup_insert_ne.
Qed.

Lemma start_then_install_owner_space_witness :
  ∃ m', (vme_device.device_start 2%positive;;
         @vme_device.install_device vme_rev_c 2%positive 0x29 0x100 0x1ff
           (handlers_D8 (Delegate "read8" 7%positive) (Delegate "write8" 7%positive)) 0x00FF00FF)
          (sample_machine (sample_bus false None None) 16) = Ret tt m'
    ∧ heap m' !! 5%positive
      = Some (obj_address_space
          (AddressSpace 16
             [Decoder 0x100 0x1ff
                (handlers_D8 (Delegate "read8" 7%positive) (Delegate "write8" 7%positive))
                0x00FF]))
    ∧ heap m' !! 3%positive = Some (obj_address_space (AddressSpace 16 [])).
Proof.
  destruct (@start_then_install_owner_space vme_rev_c
              (sample_machine (sample_bus false None None) 16) 2%positive 1%positive 4%positive
              5%positive (sample_bus false None None)
              (CpuDevice (Some 5%positive)
                 (Some (AddressSpaceConfig "program" ENDIANNESS_BIG 16 32 0 None)))
              (AddressSpaceConfig "program" ENDIANNESS_BIG 16 32 0 None) (AddressSpace 16 [])
              0x29 0x100 0x1ff
              (handlers_D8 (Delegate "read8" 7%positive) (Delegate "write8" 7%positive))
              0x00FF00FF) as (m' & Hrun & Hsp & Hframe).
  - reflexivity.
  - reflexivity.
  - reflexivity.
  - reflexivity.
  - reflexivity.
  - reflexivity.
  - reflexivity.
  - reflexivity.
  - compute_done.
  - compute_done.
  - lia.
  - exists m'. split; [exact Hrun|]. split; [exact Hsp|].
    etrans; [apply (Hframe 3%positive); discriminate|reflexivity].
Defined.

Lemma install_device_unresolved `{vme_amod_enum} (m : running_machine) (this : ptr)
    (v : vme_device) (amod : vme_amod_t) (start end_ : offs_t) (h : handler_pair) (mask : Z) :
  heap m !! this = Some (obj_vme_device v) →
  m_prgwidth v = None →
  amod ∈ [A16_SC; A24_SC; A32_SC] →
  vme_device.install_device this amod start end_ h mask m = Undefined.
Proof.
  intros Hthis Hwidth Hamod.
  destruct h; cbn [vme_device.install_device];
    unfold vme_device.install_device_D8, vme_device.install_device_D16,
      vme_device.install_device_D32;
    rewrite (bind_Ret _ _ _ _ _ (LOG_inert _ _)), (bind_Ret _ _ _ _ _ (LOG_inert _ _)),
      (bind_Ret _ _ _ _ _ (amod_check_passes _ _ _ Hamod)),
      (bind_Ret _ _ _ _ _ (load_Ret as_vme_device _ _ _ _ Hthis eq_refl)),
      Hwidth; reflexivity.
Qed.

Lemma construct_Ret (m : running_machine) (this : ptr) (o : object) :
  heap m !! this = None →
  construct this o m
  = Ret tt (Machine (<[this := o]> (heap m)) (subdevices m) (root_device m) (stdout m)).
Proof. intros Hfresh. unfold construct. by rewrite Hfresh. Qed.

Lemma vme_ctor_Ret (m : running_machine) (this : ptr) (tag : string) (owner : option ptr)
    (clock : Z) :
  heap m !! this = None →
  vme_device.ctor this tag owner clock m
  = Ret tt (Machine
      (<[this := obj_vme_device
           (VmeDevice "VME" "vme" tag owner clock None
              (AddressSpaceConfig "VME A32" ENDIANNESS_BIG 32 32 0 None)
              true "maincpu" None None None (SimpleList None None 0))]> (heap m))
      (subdevices m) (root_device m) (stdout m)).
Proof.
  intros Hfresh. unfold vme_device.ctor.
  by rewrite (bind_Ret _ _ _ _ _ (construct_Ret _ _ _ Hfresh)).
Qed.

Lemma vme_ctor_typed_Ret (m : running_machine) (this : ptr) (name tag : string)
    (owner : option ptr) (clock : Z) (shortname : string) :
  heap m !! this = None →
  vme_device.ctor_typed this name tag owner clock shortname m
  = Ret tt (Machine
      (<[this := obj_vme_device
           (VmeDevice name shortname tag owner clock None
              (AddressSpaceConfig "VME A32" ENDIANNESS_BIG 32 32 0 None)
              true "maincpu" None None None (SimpleList None None 0))]> (heap m))
      (subdevices m) (root_device m) (stdout m)).
Proof.
  intros Hfresh. unfold vme_device.ctor_typed.
  by rewrite (bind_Ret _ _ _ _ _ (construct_Ret _ _ _ Hfresh)).
Qed.

(** X5: neither constructor assigns m_prgwidth, and install_device
    switches on it: an installation with a supported modifier on a bus that
    was constructed and never started reads a member without a value,
    which is undefined behaviour. *)
Theorem install_before_start_undefined `{vme_amod_enum} (m : running_machine) (this : ptr)
    (name tag shortname : string) (owner : option ptr) (clock : Z) (amod : vme_amod_t)
    (start end_ : offs_t) (h : handler_pair) (mask : Z) :
  heap m !! this = None →
  amod ∈ [A16_SC; A24_SC; A32_SC] →
  (vme_device.ctor this tag owner clock;;
   vme_device.install_device this amod start end_ h mask) m = Undefined
  ∧ (vme_device.ctor_typed this name tag owner clock shortname;;
     vme_device.install_device this amod start end_ h mask) m = Undefined.
Proof.
  intros Hfresh Hamod. split.
  - rewrite (bind_Ret _ _ _ _ _ (vme_ctor_Ret _ _ tag owner clock Hfresh)).
    eapply install_device_unresolved; [cbn; apply lookup_insert_eq|reflexivity|done].
  - rewrite (bind_Ret _ _ _ _ _ (vme_ctor_typed_Ret _ _ name tag owner clock shortname Hfresh)).
    eapply install_device_unresolved; [cbn; apply lookup_insert_eq|reflexivity|done].
Qed.

Lemma install_before_start_undefined_witness :
  (vme_device.ctor 11%positive "vme2" (Some 1%positive) 0;;
   @vme_device.install_device vme_rev_c 11%positive 0x29 0x100 0x1ff
     (handlers_D8 (Delegate "read8" 6%positive) (Delegate "write8" 6%positive)) 0xFF)
    (sample_machine (started_bus 16) 16) = Undefined.
Proof.
  apply (@install_before_start_undefined vme_rev_c (sample_machine (started_bus 16) 16)
           11%positive "VME" "vme2" "vme" (Some 1%positive) 0 0x29 0x100 0x1ff
           (handlers_D8 (Delegate "read8" 6%positive) (Delegate "write8" 6%positive)) 0xFF).
  - reflexivity.
  - compute_done.
Defined.

(** X6: a start-up's installations on a started bus of width 16, 24 or
    32, all with supported modifiers: every call returns normally, the bus
    is not changed by any of them, and the decoder table of its space ends
    up extended by one decoder per request, in the order of the calls. *)
Theorem install_all_registers_in_order `{vme_amod_enum} (requests : list install_request) :
  ∀ (m : running_machine) (this sp : ptr) (v : vme_device) (a : address_space) (W : Z),
    heap m !! this = Some (obj_vme_device v) →
    m_prgwidth v = Some W →
    m_prgspace v = Some sp →
    heap m !! sp = Some (obj_address_space a) →
    W ∈ [16; 24; 32] →
    Forall (λ r, rq_amod r ∈ [A16_SC; A24_SC; A32_SC] ∧ 0 ≤ rq_mask r < 2 ^ 32) requests →
    install_all this requests m
    = Ret tt (Machine
        (<[sp := obj_address_space
             (AddressSpace (as_data_width a)
                (as_decoders a ++ map (request_decoder W) requests))]> (heap m))
        (subdevices m) (root_device m) (stdout m)).
Proof.
  induction requests as [|r requests IH]; intros m this sp v a W Hthis Hwidth Hprg Hsp HW Hreq.
  - cbn. rewrite app_nil_r. f_equal. destruct a. symmetry. by apply store_id.
  - apply Forall_cons in Hreq as [[Hamod Hmask] Hreq]. assert (this ≠ sp) as Hne by congruence.
    cbn [install_all].
    rewrite (bind_Ret _ _ _ _ _
               (install_device_Ret _ _ _ _ _ _ _ _ _ _ _ Hthis Hwidth Hprg Hsp Hamod HW Hmask)).
    unfold registered.
    rewrite (IH _ this sp v
               (AddressSpace (as_data_width a)
                  (as_decoders a
                     ++ [Decoder (rq_start r) (rq_end r) (rq_handlers r)
                           (Z.land (rq_mask r) (Z.shiftl 1 W - 1))])) W); try done.
    + cbn. rewrite insert_insert_eq. by rewrite <- app_assoc.
    + cbn. by rewrite lookup_insert_ne.
    + cbn. apply lookup_insert_eq.
Qed.

Lemma install_all_registers_in_order_witness :
  @install_all vme_rev_c 2%positive
    [InstallRequest 0x29 0x100 0x1ff
       (handlers_D8 (Delegate "read8" 6%positive) (Delegate "write8" 6%positive)) 0xFFFFFFFF;
     InstallRequest 0x39 0x2000 0x20ff
       (handlers_D16 (Delegate "read16" 7%positive) (Delegate "write16" 7%positive)) 0x00FF00FF]
    (sample_machine (started_bus 16) 16)
  = Ret tt (Machine
      (<[3%positive := obj_address_space
           (AddressSpace 16
              [Decoder 0x100 0x1ff
                 (handlers_D8 (Delegate "read8" 6%positive) (Delegate "write8" 6%positive))
                 0xFFFF;
               Decoder 0x2000 0x20ff
                 (handlers_D16 (Delegate "read16" 7%positive) (Delegate "write16" 7%positive))
                 0x00FF])]> (sample_heap (started_bus 16) 16))
      (subdevices (sample_machine (started_bus 16) 16)) 1%positive []).
Proof.
  rewrite (@install_all_registers_in_order vme_rev_c _ (sample_machine (started_bus 16) 16)
             2%positive 3%positive (started_bus 16) (AddressSpace 16 []) 16).
  - vm_compute. reflexivity.
  - reflexivity.
  - reflexivity.
  - reflexivity.
  - reflexivity.
  - compute_done.
  - repeat constructor; try compute_done; lia.
Defined.

(** ** What the calls keep *)

Section evolves.
Context (ok : object → object → Prop) (fresh : object → Prop).
Context (ok_refl : ∀ o, ok o o) (ok_trans : ∀ o1 o2 o3, ok o1 o2 → ok o2 o3 → ok o1 o3).
Context (fresh_ok : ∀ o o', fresh o → ok o o' → fresh o').

Lemma evolves_refl (m : running_machine) : evolves ok fresh m m.
Proof. intros p. by destruct (heap m !! p). Qed.

Lemma evolves_trans (m1 m2 m3 : running_machine) :
  evolves ok fresh m1 m2 → evolves ok fresh m2 m3 → evolves ok fresh m1 m3.
Proof.
  intros H12 H23 p. specialize (H12 p). specialize (H23 p).
  destruct (heap m1 !! p), (heap m2 !! p), (heap m3 !! p); eauto; done.
Qed.

Lemma evolves_load_store {A} (proj : object → option A) (p : ptr) (g : A → object) :
  (∀ o a, proj o = Some a → ok o (g a)) →
  respects (evolves ok fresh) (load proj p ≫= λ a, store p (g a)).
Proof.
  intros Hg m. unfold mbind, M_bind, load.
  destruct (heap m !! p) as [o|] eqn:Hp; [|done].
  destruct (proj o) as [a|] eqn:Ha; [|done]. intros q. cbn.
  destruct (decide (p = q)) as [<-|Hne].
  - rewrite Hp, lookup_insert_eq. by apply Hg.
  - rewrite lookup_insert_ne by done. by destruct (heap m !! q).
Qed.

Lemma evolves_construct (this : ptr) (o : object) :
  fresh o → respects (evolves ok fresh) (construct this o).
Proof.
  intros Ho m. unfold construct. destruct (heap m !! this) eqn:Hthis; [done|].
  intros q. cbn. destruct (decide (this = q)) as [<-|Hne].
  - by rewrite Hthis, lookup_insert_eq.
  - rewrite lookup_insert_ne by done. by destruct (heap m !! q).
Qed.

Lemma evolves_assign (this : ptr) (f : vme_device → vme_device) :
  (∀ v, ok (obj_vme_device v) (obj_vme_device (f v))) →
  respects (evolves ok fresh) (assign this f).
Proof.
  intros Hf. apply (evolves_load_store as_vme_device this (λ v, obj_vme_device (f v))).
  intros o x Hx. destruct o; simplify_eq/=. apply Hf.
Qed.

Lemma evolves_assign_card (this : ptr)
    (f : device_vme_card_interface → device_vme_card_interface) :
  (∀ c, ok (obj_vme_card c) (obj_vme_card (f c))) →
  respects (evolves ok fresh) (assign_card this f).
Proof.
  intros Hf. apply (evolves_load_store as_vme_card this (λ c, obj_vme_card (f c))).
  intros o x Hx. destruct o; simplify_eq/=. apply Hf.
Qed.

Lemma evolves_install_readwrite_handler (this : ptr) (start end_ : offs_t) (h : handler_pair)
    (mask : Z) :
  (∀ a d, ok (obj_address_space a)
            (obj_address_space (AddressSpace (as_data_width a) (as_decoders a ++ [d])))) →
  respects (evolves ok fresh) (address_space.install_readwrite_handler this start end_ h mask).
Proof.
  intros Hf. unfold address_space.install_readwrite_handler.
  apply (evolves_load_store as_address_space this
           (λ a, obj_address_space
                   (AddressSpace (as_data_width a)
                      (as_decoders a ++ [Decoder start end_ h mask])))).
  intros o x Hx. destruct o; simplify_eq/=. apply Hf.
Qed.

Lemma evolves_slot_tags (slot : ptr) (tag slottag : option string) :
  (∀ s, ok (obj_vme_slot_device s) (obj_vme_slot_device (with_slot_tags tag slottag s))) →
  respects (evolves ok fresh)
    (load as_vme_slot_device slot
       ≫= λ s, store slot (obj_vme_slot_device (with_slot_tags tag slottag s))).
Proof.
  intros Hf. apply (evolves_load_store as_vme_slot_device slot
                      (λ s, obj_vme_slot_device (with_slot_tags tag slottag s))).
  intros o x Hx. destruct o; simplify_eq/=. apply Hf.
Qed.

End evolves.

Lemma resolution_kept_refl (o : object) : resolution_kept o o.
Proof. destruct o; cbn; eauto. Qed.

Lemma resolution_kept_trans (o1 o2 o3 : object) :
  resolution_kept o1 o2 → resolution_kept o2 o3 → resolution_kept o1 o3.
Proof.
  destruct o1; cbn; try done.
  intros (v2 & -> & ? & ? & ?); cbn. intros (v3 & -> & ? & ? & ?).
  exists v3. repeat split; congruence.
Qed.

Lemma list_kept_refl (o : object) : list_kept o o.
Proof. destruct o; cbn; eauto. Qed.

Lemma list_kept_trans (o1 o2 o3 : object) : list_kept o1 o2 → list_kept o2 o3 → list_kept o1 o3.
Proof.
  destruct o1; cbn; try done.
  - intros (v2 & -> & ?); cbn. intros (v3 & -> & ?). exists v3. split; congruence.
  - intros (c2 & -> & ?); cbn. intros (c3 & -> & ?). exists c3. split; congruence.
Qed.

Lemma card_kept_refl (o : object) : card_kept o o.
Proof. destruct o; cbn; eauto 10. Qed.

Lemma card_kept_trans (o1 o2 o3 : object) : card_kept o1 o2 → card_kept o2 o3 → card_kept o1 o3.
Proof.
  destruct o1; cbn; try done.
  intros (c2 & -> & ? & ? & ? & ? & ?); cbn. intros (c3 & -> & ? & ? & ? & ? & ?).
  exists c3. repeat split; congruence.
Qed.

Lemma space_or_same_refl (o : object) : space_or_same o o.
Proof. by left. Qed.

Lemma space_or_same_trans (o1 o2 o3 : object) :
  space_or_same o1 o2 → space_or_same o2 o3 → space_or_same o1 o3.
Proof.
  intros [->|(a1 & a2 & -> & ->)] [->|(a2' & a3 & ? & ->)]; unfold space_or_same; eauto.
Qed.

Lemma any_object_ok (ok : object → object → Prop) (o o' : object) :
  any_object o → ok o o' → any_object o'.
Proof. done. Qed.

Lemma no_object_ok (ok : object → object → Prop) (o o' : object) :
  no_object o → ok o o' → no_object o'.
Proof. done. Qed.

#[local] Instance evolves_resolution_kept_refl : Reflexive (evolves resolution_kept any_object) :=
  evolves_refl _ _ resolution_kept_refl.
#[local] Instance evolves_resolution_kept_trans : Transitive (evolves resolution_kept any_object) :=
  evolves_trans _ _ resolution_kept_trans (any_object_ok _).
#[local] Instance evolves_list_kept_refl : Reflexive (evolves list_kept any_object) :=
  evolves_refl _ _ list_kept_refl.
#[local] Instance evolves_list_kept_trans : Transitive (evolves list_kept any_object) :=
  evolves_trans _ _ list_kept_trans (any_object_ok _).
#[local] Instance evolves_card_kept_refl : Reflexive (evolves card_kept any_object) :=
  evolves_refl _ _ card_kept_refl.
#[local] Instance evolves_card_kept_trans : Transitive (evolves card_kept any_object) :=
  evolves_trans _ _ card_kept_trans (any_object_ok _).
#[local] Instance evolves_space_or_same_refl : Reflexive (evolves space_or_same no_object) :=
  evolves_refl _ _ space_or_same_refl.
#[local] Instance evolves_space_or_same_trans : Transitive (evolves space_or_same no_object) :=
  evolves_trans _ _ space_or_same_trans (no_object_ok _).

#[local] Instance quiet_refl : Reflexive quiet.
Proof. by intros m. Qed.

#[local] Instance quiet_trans : Transitive quiet.
Proof.
  intros m1 m2 m3 (? & ? & ?) (? & ? & ?). repeat split; congruence.
Qed.

Lemma quiet_store (p : ptr) (o : object) : respects quiet (store p o).
Proof. by intros m. Qed.

Lemma quiet_construct (this : ptr) (o : object) : respects quiet (construct this o).
Proof. intros m. unfold construct. by destruct (heap m !! this). Qed.

Lemma quiet_destroy {A} (proj : object → option A) (this : ptr) :
  respects quiet (destroy proj this).
Proof.
  intros m. unfold destroy. destruct (heap m !! this) as [o|]; [|done]. by destruct (proj o).
Qed.

Ltac unfold_code :=
  unfold vme_device.static_set_cputag, vme_device.static_use_owner_spaces, vme_device.ctor,
    vme_device.ctor_typed, vme_device.dtor, vme_device.dtor_body, vme_device.device_start,
    vme_device.device_reset,
    vme_device.add_vme_card, vme_device.install_device_D8, vme_device.install_device_D16,
    vme_device.install_device_D32, simple_list.append,
    device_vme_card_interface.ctor, device_vme_card_interface.dtor,
    device_vme_card_interface.static_set_vme_tag, device_vme_card_interface.set_vme_device,
    device_vme_card_interface.read8, device_vme_card_interface.write8,
    vme_slot_device.ctor, vme_slot_device.static_update_vme_chains,
    vme_slot_device.static_set_vme_slot, vme_slot_device.device_start,
    vme_slot_device.device_config_complete, vme_slot_device.read8, vme_slot_device.write8.

(** One step through the code of a call; [store_tac] settles the places
    where the heap is written. *)
Ltac code_step store_tac :=
  lazymatch goal with
  | |- respects _ (_ ≫= _) => first [store_tac | apply respects_bind; [apply _| |intros ?]]
  | |- respects _ (mret _) => apply respects_mret; apply _
  | |- respects _ (LOG _) => apply respects_LOG; apply _
  | |- respects _ (fatalerror _ _) => apply respects_fatalerror; apply _
  | |- respects _ (throw _) => apply respects_throw; apply _
  | |- respects _ (nonnull _) => apply respects_nonnull; apply _
  | |- respects _ (assigned _) => apply respects_assigned; apply _
  | |- respects _ (pointee _) => apply respects_pointee; apply _
  | |- respects _ (load _ _) => apply respects_load; apply _
  | |- respects _ (dynamic_cast _ _) => apply respects_dynamic_cast; apply _
  | |- respects _ (subdevice _ _) => apply respects_subdevice; apply _
  | |- respects _ (machine_device _) => apply respects_machine_device; apply _
  | |- respects _ (device_memory_interface.space _ _) => apply respects_space; apply _
  | |- respects _ (device_memory_interface.space_config _ _) =>
      apply respects_space_config; apply _
  | |- respects _ (address_space.data_width _) => apply respects_data_width; apply _
  | |- respects _ (vme_device.install_device _ _ _ _ ?h _) =>
      destruct h; cbn [vme_device.install_device]
  | |- respects _ (if ?b then _ else _) => destruct b
  | |- respects _ (match ?x with _ => _ end) => destruct x
  | |- respects _ _ => first [store_tac | progress unfold_code]
  end.

Ltac solve_ok :=
  intros; cbn;
  first [ exact I
        | done
        | eexists; split; [reflexivity|]; cbn; repeat split; first [done | by apply prefix_app_r]
        | right; by eauto ].

Ltac evolves_store refl :=
  first [ apply (evolves_assign _ _ refl); solve_ok
        | apply (evolves_assign_card _ _ refl); solve_ok
        | apply (evolves_install_readwrite_handler _ _ refl); solve_ok
        | apply (evolves_slot_tags _ _ refl); solve_ok
        | apply (evolves_construct _ _ refl); solve_ok ].

Ltac quiet_store_tac :=
  first [ apply quiet_store | apply quiet_construct | apply quiet_destroy
        | progress unfold assign, assign_card, address_space.install_readwrite_handler ].

Lemma respects_mono {A} (R R' : running_machine → running_machine → Prop) (x : M A) :
  (∀ m m', R m m' → R' m m') → respects R x → respects R' x.
Proof. intros HR Hx m. specialize (Hx m). destruct (x m); eauto. Qed.

Lemma respects_and {A} (R R' : running_machine → running_machine → Prop) (x : M A) :
  respects R x → respects R' x → respects (λ m m', R m m' ∧ R' m m') x.
Proof. intros Hx Hx' m. specialize (Hx m). specialize (Hx' m). by destruct (x m). Qed.

Lemma evolves_live (ok : object → object → Prop) (fresh : object → Prop)
    (m m' : running_machine) (p : ptr) (o : object) :
  evolves ok fresh m m' → heap m !! p = Some o → ∃ o', heap m' !! p = Some o' ∧ ok o o'.
Proof.
  intros Hev Hp. specialize (Hev p). rewrite Hp in Hev.
  destruct (heap m' !! p) as [o'|]; [|done]. eauto.
Qed.

Lemma run_quiet `{vme_amod_enum} (c : call) : respects quiet (run c).
Proof.
  destruct c; cbn [run]; repeat code_step quiet_store_tac.
Qed.

(** X8: no member function of vme.cpp writes to the log (VERBOSE is 0,
    so every LOG is compiled to nothing) and none changes the device
    registry, however the call ends. *)
Theorem calls_leave_log_and_registry `{vme_amod_enum} (c : call) :
  respects
    (λ m m', stdout m' = stdout m ∧ subdevices m' = subdevices m
             ∧ root_device m' = root_device m)
    (run c).
Proof.
  eapply respects_mono; [|apply run_quiet]. intros m m' (? & ? & ?). done.
Qed.

Lemma install_device_space_or_same `{vme_amod_enum} (this : ptr) (amod : vme_amod_t)
    (start end_ : offs_t) (h : handler_pair) (mask : Z) :
  respects (evolves space_or_same no_object)
    (vme_device.install_device this amod start end_ h mask).
Proof.
  repeat code_step ltac:(evolves_store space_or_same_refl).
Qed.

(** X9: install_device changes nothing but address spaces: however a call
    ends, every object that is no address space (the bus, the cards, the
    slots, the processors) is as it was, and no object has appeared or
    gone. *)
Theorem install_device_touches_spaces_only `{vme_amod_enum} (this : ptr) (amod : vme_amod_t)
    (start end_ : offs_t) (h : handler_pair) (mask : Z) :
  respects
    (λ m m', ∀ p,
       heap m' !! p = heap m !! p
       ∨ ∃ a a', heap m !! p = Some (obj_address_space a)
           ∧ heap m' !! p = Some (obj_address_space a'))
    (vme_device.install_device this amod start end_ h mask).
Proof.
  eapply respects_mono; [|apply install_device_space_or_same].
  intros m m' Hev p. specialize (Hev p).
  destruct (heap m !! p) as [o|], (heap m' !! p) as [o'|]; try done; [|by left].
  destruct Hev as [->|(a & a' & -> & ->)]; [by left|right; eauto].
Qed.

Lemma dtor_cases (m : running_machine) (this : ptr) :
  vme_device.dtor this m
  = match heap m !! this with
    | Some (obj_vme_device _) =>
        Ret tt (Machine (delete this (heap m)) (subdevices m) (root_device m) (stdout m))
    | _ => Undefined
    end.
Proof.
  destruct (heap m !! this) as [o|] eqn:Hthis.
  - destruct o as [|v| | | |]; cbn; try exact (dtor_Ret _ _ _ Hthis).
    all: unfold vme_device.dtor, vme_device.dtor_body, assign, mbind, M_bind, load.
    all: by rewrite LOG_inert, Hthis.
  - unfold vme_device.dtor, vme_device.dtor_body, assign, mbind, M_bind, load.
    by rewrite LOG_inert, Hthis.
Qed.

Lemma card_dtor_cases (m : running_machine) (this : ptr) :
  device_vme_card_interface.dtor this m
  = match heap m !! this with
    | Some (obj_vme_card _) =>
        Ret tt (Machine (delete this (heap m)) (subdevices m) (root_device m) (stdout m))
    | _ => Undefined
    end.
Proof.
  unfold device_vme_card_interface.dtor.
  rewrite (bind_Ret _ _ _ _ _ (LOG_inert _ _)). unfold destroy.
  destruct (heap m !! this) as [o|]; [|done]. by destruct o.
Qed.

Lemma call_is_destructor (c : call) :
  (∃ this, c = call_vme_dtor this) ∨ (∃ this, c = call_card_dtor this)
  ∨ ((∀ this, c ≠ call_vme_dtor this) ∧ (∀ this, c ≠ call_card_dtor this)).
Proof. destruct c; eauto; right; right; split; intros; discriminate. Qed.

Lemma run_resolution_kept `{vme_amod_enum} (c : call) :
  (∀ this, c ≠ call_vme_device_start this) →
  (∀ this, c ≠ call_vme_dtor this) →
  (∀ this, c ≠ call_card_dtor this) →
  respects (evolves resolution_kept any_object) (run c).
Proof.
  intros Hc Hdtor Hcard. destruct c; cbn [run];
    try (by destruct (Hc this)); try (by destruct (Hdtor this));
    try (by destruct (Hcard this));
    repeat code_step ltac:(evolves_store resolution_kept_refl).
Qed.

(** X10: what a bus has resolved changes in device_start only: after any
    other member function of vme.cpp, however it ends, every bus is still
    a bus with the m_maincpu, m_prgspace and m_prgwidth it had, unless the
    call was the destructor of this very bus, after which it is no object
    any more. *)
Theorem resolution_changes_in_device_start_only `{vme_amod_enum} (c : call) :
  (∀ this, c ≠ call_vme_device_start this) →
  respects
    (λ m m', ∀ bus v,
       heap m !! bus = Some (obj_vme_device v) →
       (c = call_vme_dtor bus ∧ heap m' !! bus = None)
       ∨ ∃ v', heap m' !! bus = Some (obj_vme_device v')
           ∧ m_maincpu v' = m_maincpu v
           ∧ m_prgspace v' = m_prgspace v
           ∧ m_prgwidth v' = m_prgwidth v)
    (run c).
Proof.
  intros Hc. destruct (call_is_destructor c) as [[this ->]|[[this ->]|[Hdtor Hcard]]].
  - intros m. cbn [run]. rewrite dtor_cases.
    destruct (heap m !! this) as [[]|] eqn:Hthis; try done.
    intros bus v0 Hbus. cbn. destruct (decide (bus = this)) as [->|Hne].
    + left. split; [done|]. apply lookup_delete_eq.
    + right. exists v0. by rewrite lookup_delete_ne.
  - intros m. cbn [run]. rewrite card_dtor_cases.
    destruct (heap m !! this) as [[]|] eqn:Hthis; try done.
    intros bus v0 Hbus. cbn. right. exists v0.
    rewrite lookup_delete_ne; [done|]. congruence.
  - eapply respects_mono; [|by apply run_resolution_kept].
    intros m m' Hev bus v Hbus. right.
    destruct (evolves_live _ _ _ _ _ _ Hev Hbus) as (o' & Hbus' & v' & -> & Hkept). eauto.
Qed.

Lemma resolution_changes_in_device_start_only_witness :
  respects
    (λ m m', ∀ bus v,
       heap m !! bus = Some (obj_vme_device v) →
       (call_vme_dtor 2%positive = call_vme_dtor bus ∧ heap m' !! bus = None)
       ∨ ∃ v', heap m' !! bus = Some (obj_vme_device v')
           ∧ m_maincpu v' = m_maincpu v
           ∧ m_prgspace v' = m_prgspace v
           ∧ m_prgwidth v' = m_prgwidth v)
    (@run vme_rev_c (call_vme_dtor 2%positive)).
Proof.
  apply (@resolution_changes_in_device_start_only vme_rev_c). intros this. discriminate.
Defined.

Lemma run_list_kept `{vme_amod_enum} (c : call) :
  (∀ this card, c ≠ call_vme_add_vme_card this card) →
  (∀ this, c ≠ call_card_set_vme_device this) →
  (∀ this, c ≠ call_vme_dtor this) →
  (∀ this, c ≠ call_card_dtor this) →
  respects (evolves list_kept any_object) (run c).
Proof.
  intros Hadd Hset Hdtor Hcard. destruct c; cbn [run];
    try (by destruct (Hadd this card)); try (by destruct (Hset this));
    try (by destruct (Hdtor this)); try (by destruct (Hcard this));
    repeat code_step ltac:(evolves_store list_kept_refl).
Qed.

(** X11: the card list changes in add_vme_card, set_vme_device and the
    destructor of the bus only: after any other member function of
    vme.cpp, however it ends, every bus has the list (first card, last
    card, count) it had, and every card the m_next link it had, unless the
    call was the destructor of this very card, after which it is no object
    any more. *)
Theorem card_list_changes_in_attach_and_teardown_only `{vme_amod_enum} (c : call) :
  (∀ this card, c ≠ call_vme_add_vme_card this card) →
  (∀ this, c ≠ call_card_set_vme_device this) →
  (∀ this, c ≠ call_vme_dtor this) →
  respects
    (λ m m',
       (∀ bus v, heap m !! bus = Some (obj_vme_device v) →
          ∃ v', heap m' !! bus = Some (obj_vme_device v')
            ∧ m_device_list v' = m_device_list v)
       ∧ (∀ card x, heap m !! card = Some (obj_vme_card x) →
            (c = call_card_dtor card ∧ heap m' !! card = None)
            ∨ ∃ x', heap m' !! card = Some (obj_vme_card x') ∧ m_next x' = m_next x))
    (run c).
Proof.
  intros Hadd Hset Hdtor.
  destruct (call_is_destructor c) as [[this ->]|[[this ->]|[_ Hcard]]].
  - by destruct (Hdtor this).
  - intros m. cbn [run]. rewrite card_dtor_cases.
    destruct (heap m !! this) as [[]|] eqn:Hthis; try done. cbn. split.
    + intros bus v Hbus. exists v. rewrite lookup_delete_ne; [done|]. congruence.
    + intros card x Hx. destruct (decide (card = this)) as [->|Hne].
      * left. split; [done|]. apply lookup_delete_eq.
      * right. exists x. by rewrite lookup_delete_ne.
  - eapply respects_mono; [|by apply run_list_kept].
    intros m m' Hev. split.
    + intros bus v Hbus.
      destruct (evolves_live _ _ _ _ _ _ Hev Hbus) as (o' & Hbus' & v' & -> & Hkept). eauto.
    + intros card x Hx. right.
      destruct (evolves_live _ _ _ _ _ _ Hev Hx) as (o' & Hx' & x' & -> & Hkept). eauto.
Qed.

Lemma card_list_changes_in_attach_and_teardown_only_witness :
  respects
    (λ m m',
       (∀ bus v, heap m !! bus = Some (obj_vme_device v) →
          ∃ v', heap m' !! bus = Some (obj_vme_device v')
            ∧ m_device_list v' = m_device_list v)
       ∧ (∀ card x, heap m !! card = Some (obj_vme_card x) →
            (call_card_dtor 6%positive = call_card_dtor card ∧ heap m' !! card = None)
            ∨ ∃ x', heap m' !! card = Some (obj_vme_card x') ∧ m_next x' = m_next x))
    (@run vme_rev_c (call_card_dtor 6%positive)).
Proof.
  apply (@card_list_changes_in_attach_and_teardown_only vme_rev_c); intros; discriminate.
Defined.

(** ** Slots and cards *)

Lemma dynamic_cast_Some {A} (proj : object → option A) (q : ptr) (o : object) (a : A)
    (m : running_machine) :
  heap m !! q = Some o → proj o = Some a → dynamic_cast proj (Some q) m = Ret (Some q) m.
Proof. intros Hq Ho. unfold dynamic_cast. by rewrite Hq, Ho. Qed.

Lemma dynamic_cast_other {A} (proj : object → option A) (q : ptr) (o : object)
    (m : running_machine) :
  heap m !! q = Some o → proj o = None → dynamic_cast proj (Some q) m = Ret None m.
Proof. intros Hq Ho. unfold dynamic_cast. by rewrite Hq, Ho. Qed.

Lemma static_set_vme_tag_Ret (m : running_machine) (device : ptr) (tag slottag : option string)
    (c : device_vme_card_interface) :
  heap m !! device = Some (obj_vme_card c) →
  device_vme_card_interface.static_set_vme_tag device tag slottag m
  = Ret tt (Machine (<[device := obj_vme_card (with_m_vme_tags tag slottag c)]> (heap m))
             (subdevices m) (root_device m) (stdout m)).
Proof.
  intros Hdevice. unfold device_vme_card_interface.static_set_vme_tag.
  rewrite (bind_Ret _ _ _ _ _ (LOG_inert _ _)).
  rewrite (bind_Ret _ _ _ _ _ (dynamic_cast_Some as_vme_card _ _ _ _ Hdevice eq_refl)).
  by apply assign_card_Ret.
Qed.

(** X12: static_set_vme_tag on a card stores the two tags and leaves the
    bus reference, the slot number and the link of the card; on a live
    device that is no card the cast to the card interface fails and
    bad_cast is thrown with the machine unchanged. *)
Theorem static_set_vme_tag_effect (m : running_machine) (device : ptr)
    (tag slottag : option string) :
  (∀ c, heap m !! device = Some (obj_vme_card c) →
     device_vme_card_interface.static_set_vme_tag device tag slottag m
     = Ret tt (Machine
         (<[device := obj_vme_card
              (VmeCard (m_device c) (m_vme c) tag slottag (m_slot c) (m_next c))]> (heap m))
         (subdevices m) (root_device m) (stdout m)))
  ∧ (∀ o, heap m !! device = Some o → as_vme_card o = None →
     device_vme_card_interface.static_set_vme_tag device tag slottag m = Throw bad_cast m).
Proof.
  split.
  - intros c Hdevice. by apply static_set_vme_tag_Ret.
  - intros o Hdevice Ho. unfold device_vme_card_interface.static_set_vme_tag.
    rewrite (bind_Ret _ _ _ _ _ (LOG_inert _ _)).
    by rewrite (bind_Ret _ _ _ _ _ (dynamic_cast_other as_vme_card _ _ _ Hdevice Ho)).
Qed.

Lemma static_set_vme_tag_effect_witness :
  device_vme_card_interface.static_set_vme_tag 6%positive (Some "vme") (Some "slot3")
    (slot_machine (started_bus 16) (new_card 6%positive))
  = Ret tt (slot_machine (started_bus 16) (VmeCard 6%positive None (Some "vme") (Some "slot3") 0 None))
  ∧ device_vme_card_interface.static_set_vme_tag 4%positive (Some "vme") (Some "slot3")
      (slot_machine (started_bus 16) (new_card 6%positive))
    = Throw bad_cast (slot_machine (started_bus 16) (new_card 6%positive)).
Proof.
  destruct (static_set_vme_tag_effect (slot_machine (started_bus 16) (new_card 6%positive))
              6%positive (Some "vme") (Some "slot3")) as [Hcard _].
  destruct (static_set_vme_tag_effect (slot_machine (started_bus 16) (new_card 6%positive))
              4%positive (Some "vme") (Some "slot3")) as [_ Hother].
  split.
  - rewrite (Hcard (new_card 6%positive)) by reflexivity. vm_compute. reflexivity.
  - eapply Hother; reflexivity.
Defined.

Lemma static_set_vme_slot_Ret (m : running_machine) (device : ptr) (tag slottag : option string)
    (s : vme_slot_device) :
  heap m !! device = Some (obj_vme_slot_device s) →
  vme_slot_device.static_set_vme_slot device tag slottag m
  = Ret tt (Machine (<[device := obj_vme_slot_device (with_slot_tags tag slottag s)]> (heap m))
             (subdevices m) (root_device m) (stdout m)).
Proof.
  intros Hdevice. unfold vme_slot_device.static_set_vme_slot.
  rewrite (bind_Ret _ _ _ _ _ (LOG_inert _ _)).
  rewrite (bind_Ret _ _ _ _ _ (dynamic_cast_Some as_vme_slot_device _ _ _ _ Hdevice eq_refl)).
  by rewrite (bind_Ret _ _ _ _ _ (load_Ret as_vme_slot_device _ _ _ _ Hdevice eq_refl)).
Qed.

(** X13: static_set_vme_slot on a slot stores the bus tag and the slot
    tag and leaves the plugged card; on a live device that is no slot the
    cast fails and bad_cast is thrown with the machine unchanged. *)
Theorem static_set_vme_slot_effect (m : running_machine) (device : ptr)
    (tag slottag : option string) :
  (∀ s, heap m !! device = Some (obj_vme_slot_device s) →
     vme_slot_device.static_set_vme_slot device tag slottag m
     = Ret tt (Machine
         (<[device := obj_vme_slot_device (VmeSlot (slot_tag s) (slot_card_device s) tag slottag)]>
            (heap m))
         (subdevices m) (root_device m) (stdout m)))
  ∧ (∀ o, heap m !! device = Some o → as_vme_slot_device o = None →
     vme_slot_device.static_set_vme_slot device tag slottag m = Throw bad_cast m).
Proof.
  split.
  - intros s Hdevice. by apply static_set_vme_slot_Ret.
  - intros o Hdevice Ho. unfold vme_slot_device.static_set_vme_slot.
    rewrite (bind_Ret _ _ _ _ _ (LOG_inert _ _)).
    by rewrite (bind_Ret _ _ _ _ _ (dynamic_cast_other as_vme_slot_device _ _ _ Hdevice Ho)).
Qed.

Lemma static_set_vme_slot_effect_witness :
  vme_slot_device.static_set_vme_slot 6%positive (Some "vme") (Some "slot3")
    (slot_machine (started_bus 16) (new_card 6%positive))
  = Throw bad_cast (slot_machine (started_bus 16) (new_card 6%positive)).
Proof.
  destruct (static_set_vme_slot_effect (slot_machine (started_bus 16) (new_card 6%positive))
              6%positive (Some "vme") (Some "slot3")) as [_ Hother].
  eapply Hother; reflexivity.
Defined.

Lemma slot_device_start_Ret (m : running_machine) (this card : ptr) (s : vme_slot_device)
    (c : device_vme_card_interface) :
  heap m !! this = Some (obj_vme_slot_device s) →
  slot_card_device s = Some card →
  heap m !! card = Some (obj_vme_card c) →
  vme_slot_device.device_start this m
  = Ret tt (Machine
      (<[card := obj_vme_card (with_m_vme_tags (slot_m_vme_tag s) (slot_m_vme_slottag s) c)]>
         (heap m))
      (subdevices m) (root_device m) (stdout m)).
Proof.
  intros Hthis Hplugged Hcard. unfold vme_slot_device.device_start.
  rewrite (bind_Ret _ _ _ _ _ (load_Ret as_vme_slot_device _ _ _ _ Hthis eq_refl)).
  rewrite Hplugged.
  rewrite (bind_Ret _ _ _ _ _ (dynamic_cast_Some as_vme_card _ _ _ _ Hcard eq_refl)).
  rewrite (bind_Ret _ _ _ _ _ (LOG_inert _ _)).
  by apply static_set_vme_tag_Ret.
Qed.

(** X14: the start-up of a slot.  A slot that holds no card, or a device
    that is no card, does nothing; a slot that holds a card hands its bus
    tag and its slot tag to the card and changes nothing else. *)
Theorem slot_device_start_effect (m : running_machine) (this : ptr) (s : vme_slot_device) :
  heap m !! this = Some (obj_vme_slot_device s) →
  (dynamic_cast as_vme_card (slot_card_device s) m = Ret None m →
   vme_slot_device.device_start this m = Ret tt m)
  ∧ (∀ card c,
       slot_card_device s = Some card →
       heap m !! card = Some (obj_vme_card c) →
       vme_slot_device.device_start this m
       = Ret tt (Machine
           (<[card := obj_vme_card
                (VmeCard (m_device c) (m_vme c) (slot_m_vme_tag s) (slot_m_vme_slottag s)
                   (m_slot c) (m_next c))]> (heap m))
           (subdevices m) (root_device m) (stdout m))).
Proof.
  intros Hthis. split.
  - intros Hnone. unfold vme_slot_device.device_start.
    rewrite (bind_Ret _ _ _ _ _ (load_Ret as_vme_slot_device _ _ _ _ Hthis eq_refl)).
    by rewrite (bind_Ret _ _ _ _ _ Hnone).
  - intros card c Hplugged Hcard. by apply slot_device_start_Ret.
Qed.

Lemma slot_device_start_effect_witness :
  vme_slot_device.device_start 10%positive (slot_machine (started_bus 16) (new_card 6%positive))
  = Ret tt (slot_machine (started_bus 16) (new_card 6%positive))
  ∧ vme_slot_device.device_start 9%positive (slot_machine (started_bus 16) (new_card 6%positive))
    = Ret tt (slot_machine (started_bus 16)
                (VmeCard 6%positive None (Some "vme") (Some "slot1") 0 None)).
Proof.
  split.
  - apply (slot_device_start_effect (slot_machine (started_bus 16) (new_card 6%positive))
             10%positive (sample_slot None (Some "vme") (Some "slot2"))); reflexivity.
  - destruct (slot_device_start_effect (slot_machine (started_bus 16) (new_card 6%positive))
                9%positive (sample_slot (Some 6%positive) (Some "vme") (Some "slot1")) eq_refl)
      as [_ Hcard].
    rewrite (Hcard 6%positive (new_card 6%positive)) by reflexivity.
    vm_compute. reflexivity.
Defined.

Lemma add_vme_card_card_kept (this : ptr) (card : option ptr) :
  respects (evolves card_kept any_object) (vme_device.add_vme_card this card).
Proof.
  repeat code_step ltac:(evolves_store card_kept_refl).
Qed.

Lemma chains_insert (m : running_machine) (bus p : ptr) (o : object) (l : list ptr) :
  chains m bus l → p ≠ bus → p ∉ l →
  chains (Machine (<[p := o]> (heap m)) (subdevices m) (root_device m) (stdout m)) bus l.
Proof.
  intros (v & Hbus & Hseg & Htail) Hne Hnotin. exists v. cbn.
  rewrite lookup_insert_ne by done. split; [done|]. split; [|done].
  by apply lseg_insert_notin.
Qed.

Lemma chains_counts (m : running_machine) (bus : ptr) (l : list ptr) :
  chains m bus l →
  ∃ v, heap m !! bus = Some (obj_vme_device v) ∧ counts m bus (m_count (m_device_list v)).
Proof.
  intros (v & Hbus & Hseg & Htail). exists v. split; [done|].
  exists v. split; [done|]. split; [done|]. rewrite Htail.
  destruct (last l) as [t|] eqn:Hlast; [|done].
  eapply lseg_cards; [exact Hseg|]. by eapply last_Some_elem_of.
Qed.

Lemma set_vme_device_attaches (m : running_machine) (this bus : ptr)
    (c : device_vme_card_interface) (l : list ptr) :
  heap m !! this = Some (obj_vme_card c) →
  (machine_device (m_vme_tag c) ≫= dynamic_cast as_vme_device) m = Ret (Some bus) m →
  chains m bus l → NoDup l → this ∉ l →
  ∃ m', device_vme_card_interface.set_vme_device this m = Ret tt m'
    ∧ heap m' !! this
      = Some (obj_vme_card
          (VmeCard (m_device c) (Some bus) (m_vme_tag c) (m_vme_slottag c) (m_slot c) None))
    ∧ chains m' bus (l ++ [this])
    ∧ (∀ v, heap m !! bus = Some (obj_vme_device v) →
         ∃ v', heap m' !! bus = Some (obj_vme_device v')
           ∧ simple_list.count (m_device_list v') = simple_list.count (m_device_list v) + 1).
Proof.
  intros Hthis Hfound Hchains Hnodup Hnotin.
  destruct (chains_counts _ _ _ Hchains) as (v & Hbus & Hcounts).
  assert (this ≠ bus) as Hne by congruence.
  set (m1 := Machine (<[this := obj_vme_card (with_m_vme (Some bus) c)]> (heap m))
               (subdevices m) (root_device m) (stdout m)).
  assert (counts m1 bus (m_count (m_device_list v))) as Hcounts1.
  { destruct Hcounts as (v0 & Hbus0 & Hn & Htail). exists v0. cbn.
    rewrite lookup_insert_ne by done. split; [done|]. split; [done|].
    destruct (m_tail (m_device_list v0)); [|done]. by apply is_card_insert. }
  assert (is_card (heap m1) this) as Hlive1.
  { eexists. cbn. apply lookup_insert_eq. }
  destruct (add_vme_card_step m1 bus this _ Hcounts1 Hlive1)
    as (m' & Hrun & Hcounts' & _ & Hchains').
  specialize (Hchains' l Hnodup Hnotin (chains_insert _ _ _ _ _ Hchains Hne Hnotin)).
  exists m'. split; [|split; [|split]].
  - unfold device_vme_card_interface.set_vme_device.
    rewrite (bind_Ret _ _ _ _ _ (LOG_inert _ _)).
    rewrite (bind_Ret _ _ _ _ _ (load_Ret as_vme_card _ _ _ _ Hthis eq_refl)).
    destruct (machine_device_Ret (m_vme_tag c) m) as [found Hlookup].
    rewrite (bind_Ret _ _ _ _ _ Hlookup) in Hfound.
    rewrite (bind_Ret _ _ _ _ _ Hlookup), (bind_Ret _ _ _ _ _ Hfound).
    by rewrite (bind_Ret _ _ _ _ _ (assign_card_Ret _ _ _ _ Hthis)).
  - pose proof (add_vme_card_card_kept bus (Some this) m1) as Hkept.
    rewrite Hrun in Hkept.
    destruct (evolves_live _ _ _ _ this _ Hkept ltac:(cbn; apply lookup_insert_eq))
      as (o' & Hthis' & c' & -> & Hdev & Hvme & Htag & Hslottag & Hslot).
    destruct Hchains' as (v' & Hbus' & Hseg' & _).
    apply lseg_snoc in Hseg' as (_ & c'' & Hthis'' & Hnext).
    rewrite Hthis' in Hthis''. injection Hthis'' as <-.
    rewrite Hthis'. destruct c'; cbn in *. by subst.
  - done.
  - intros v0 Hbus0. rewrite Hbus in Hbus0. injection Hbus0 as <-.
    destruct Hcounts' as (v' & Hbus' & Hn' & _). by exists v'.
Qed.

(** X15: set_vme_device of a card whose tag names a bus: the card gets
    the bus as its m_vme, keeps its tags and slot number, and is appended
    to the card list of that bus, whose count grows by one; a list that
    chained the distinct cards [l], none of them this card, chains
    [l ++ [this]] afterwards. *)
Theorem set_vme_device_attaches_to_bus (m : running_machine) (this bus : ptr)
    (c : device_vme_card_interface) (l : list ptr) :
  heap m !! this = Some (obj_vme_card c) →
  (machine_device (m_vme_tag c) ≫= dynamic_cast as_vme_device) m = Ret (Some bus) m →
  chains m bus l → NoDup l → this ∉ l →
  ∃ m', device_vme_card_interface.set_vme_device this m = Ret tt m'
    ∧ heap m' !! this
      = Some (obj_vme_card
          (VmeCard (m_device c) (Some bus) (m_vme_tag c) (m_vme_slottag c) (m_slot c) None))
    ∧ chains m' bus (l ++ [this])
    ∧ (∀ v, heap m !! bus = Some (obj_vme_device v) →
         ∃ v', heap m' !! bus = Some (obj_vme_device v')
           ∧ simple_list.count (m_device_list v') = simple_list.count (m_device_list v) + 1).
Proof. apply set_vme_device_attaches. Qed.

Lemma set_vme_device_attaches_to_bus_witness :
  ∃ m', device_vme_card_interface.set_vme_device 6%positive (sample_machine (started_bus 16) 16)
        = Ret tt m'
    ∧ heap m' !! 6%positive
      = Some (obj_vme_card (VmeCard 6%positive (Some 2%positive) (Some "vme") (Some "slot1") 0 None))
    ∧ chains m' 2%positive [6%positive].
Proof.
  destruct (set_vme_device_attaches_to_bus (sample_machine (started_bus 16) 16) 6%positive
              2%positive (sample_card 6%positive (Some "vme")) [])
    as (m' & Hrun & Hcard & Hchains & _).
  - reflexivity.
  - reflexivity.
  - exists (started_bus 16). split; [reflexivity|]. split; reflexivity.
  - constructor.
  - apply not_elem_of_nil.
  - exists m'. split; [exact Hrun|]. split; [exact Hcard|exact Hchains].
Defined.

(** X16: the attachment protocol from end to end.  A slot that holds a
    card is given the tag of a bus and its slot tag, the slot starts, and
    the card resolves its bus: the three calls return normally, the card
    ends with both tags and the bus as its m_vme, and it is the last card
    of the list of that bus. *)
Theorem slot_start_then_card_attach (m : running_machine) (slot card bus : ptr)
    (s : vme_slot_device) (c : device_vme_card_interface) (tag : string)
    (slottag : option string) (l : list ptr) :
  heap m !! slot = Some (obj_vme_slot_device s) →
  slot_card_device s = Some card →
  heap m !! card = Some (obj_vme_card c) →
  subdevices m !! (root_device m, tag) = Some bus →
  chains m bus l → NoDup l → card ∉ l →
  ∃ m', (vme_slot_device.static_set_vme_slot slot (Some tag) slottag;;
         vme_slot_device.device_start slot;;
         device_vme_card_interface.set_vme_device card) m = Ret tt m'
    ∧ heap m' !! card
      = Some (obj_vme_card (VmeCard (m_device c) (Some bus) (Some tag) slottag (m_slot c) None))
    ∧ chains m' bus (l ++ [card]).
Proof.
  intros Hslot Hplugged Hcard Hsub Hchains Hnodup Hnotin.
  assert (slot ≠ card) as Hsc by congruence.
  destruct Hchains as (v & Hbus & Hseg & Htail).
  assert (slot ≠ bus) as Hsb by congruence. assert (card ≠ bus) as Hcb by congruence.
  assert (slot ∉ l) as Hsl.
  { intros Hin. destruct (lseg_cards _ _ _ _ _ Hseg Hin). congruence. }
  rewrite (bind_Ret _ _ _ _ _ (static_set_vme_slot_Ret _ _ (Some tag) slottag _ Hslot)).
  set (m1 := Machine _ _ _ _).
  rewrite (bind_Ret _ _ _ _ _
             (slot_device_start_Ret m1 slot card (with_slot_tags (Some tag) slottag s) c
                ltac:(cbn; apply lookup_insert_eq) Hplugged
                ltac:(cbn; by rewrite lookup_insert_ne))).
  set (m2 := Machine _ _ _ _).
  destruct (set_vme_device_attaches m2 card bus
              (with_m_vme_tags (Some tag) slottag c) l) as (m' & Hrun & Hcard' & Hchains' & _).
  - cbn. apply lookup_insert_eq.
  - cbn [m_vme_tag with_m_vme_tags].
    rewrite (bind_Ret _ _ m2 m2 (Some bus))
      by (unfold machine_device, subdevice; cbn; by rewrite Hsub).
    apply (dynamic_cast_Some as_vme_device bus (obj_vme_device v) v); [|done].
    cbn. by rewrite !lookup_insert_ne.
  - apply chains_insert; [|done..]. apply chains_insert; [|done..]. by exists v.
  - done.
  - done.
  - exists m'. split; [done|]. split; [exact Hcard'|exact Hchains'].
Qed.

Lemma slot_start_then_card_attach_witness :
  ∃ m', (vme_slot_device.static_set_vme_slot 9%positive (Some "vme") (Some "slot7");;
         vme_slot_device.device_start 9%positive;;
         device_vme_card_interface.set_vme_device 6%positive)
          (slot_machine (started_bus 16) (new_card 6%positive)) = Ret tt m'
    ∧ heap m' !! 6%positive
      = Some (obj_vme_card (VmeCard 6%positive (Some 2%positive) (Some "vme") (Some "slot7") 0 None))
    ∧ chains m' 2%positive [6%positive].
Proof.
  destruct (slot_start_then_card_attach (slot_machine (started_bus 16) (new_card 6%positive))
              9%positive 6%positive 2%positive
              (sample_slot (Some 6%positive) (Some "vme") (Some "slot1")) (new_card 6%positive)
              "vme" (Some "slot7") []) as (m' & Hrun & Hcard & Hchains).
  - reflexivity.
  - reflexivity.
  - reflexivity.
  - reflexivity.
  - exists (started_bus 16). split; [reflexivity|]. split; reflexivity.
  - constructor.
  - apply not_elem_of_nil.
  - exists m'. split; [exact Hrun|]. split; [exact Hcard|exact Hchains].
Defined.

(** ** Configuration of the bus *)

Lemma static_use_owner_spaces_Ret (m : running_machine) (device : ptr) (v : vme_device) :
  heap m !! device = Some (obj_vme_device v) →
  vme_device.static_use_owner_spaces device m
  = Ret tt (Machine (<[device := obj_vme_device (with_m_allocspaces false v)]> (heap m))
             (subdevices m) (root_device m) (stdout m)).
Proof.
  intros Hdevice. unfold vme_device.static_use_owner_spaces.
  rewrite (bind_Ret _ _ _ _ _ (LOG_inert _ _)). by apply assign_Ret.
Qed.

(** X17: configuration and start-up of a delegating bus.  The two
    configuration calls, static_use_owner_spaces and static_set_cputag,
    may come in either order; device_start then looks up the processor
    under the tag that was set, not under "maincpu", and the bus ends up
    with that processor, its program space and the data bus width of its
    configuration. *)
Theorem configure_then_start_delegating (m : running_machine) (this owner cpu sp : ptr)
    (v : vme_device) (c : cpu_device) (config : address_space_config) (tag : string) :
  heap m !! this = Some (obj_vme_device v) →
  m_owner v = Some owner →
  subdevices m !! (owner, tag) = Some cpu →
  heap m !! cpu = Some (obj_cpu_device c) →
  cpu_space c = Some sp →
  cpu_space_config c = Some config →
  let started :=
    Ret tt (Machine
      (<[this := obj_vme_device
           (VmeDevice (m_name v) (m_shortname v) (m_tag v) (m_owner v) (m_clock v)
              (m_addrspace v) (m_a32_config v) false tag (Some cpu) (Some sp)
              (Some (m_databus_width config)) (m_device_list v))]> (heap m))
      (subdevices m) (root_device m) (stdout m)) in
  (vme_device.static_use_owner_spaces this;; vme_device.static_set_cputag this tag;;
   vme_device.device_start this) m = started
  ∧ (vme_device.static_set_cputag this tag;; vme_device.static_use_owner_spaces this;;
     vme_device.device_start this) m = started.
Proof.
  intros Hthis Howner Hsub Hcpu Hsp Hconfig started. assert (this ≠ cpu) as Hne by congruence.
  split.
  - rewrite (bind_Ret _ _ _ _ _ (static_use_owner_spaces_Ret _ _ _ Hthis)).
    set (m1 := Machine _ _ _ _).
    unfold vme_device.static_set_cputag.
    rewrite (bind_Ret _ _ _ _ _
               (assign_Ret this _ (with_m_allocspaces false v) m1
                  ltac:(cbn; apply lookup_insert_eq))).
    set (m2 := Machine _ _ _ _).
    rewrite (device_start_owner_Ret m2 this owner cpu sp
               (with_m_cputag tag (with_m_allocspaces false v)) c config); try done.
    + unfold started. cbn. by rewrite !insert_insert_eq.
    + cbn. apply lookup_insert_eq.
    + cbn. by rewrite !lookup_insert_ne.
  - unfold vme_device.static_set_cputag.
    rewrite (bind_Ret _ _ _ _ _ (assign_Ret _ _ _ _ Hthis)).
    set (m1 := Machine _ _ _ _).
    rewrite (bind_Ret _ _ _ _ _
               (static_use_owner_spaces_Ret m1 this (with_m_cputag tag v)
                  ltac:(cbn; apply lookup_insert_eq))).
    set (m2 := Machine _ _ _ _).
    rewrite (device_start_owner_Ret m2 this owner cpu sp
               (with_m_allocspaces false (with_m_cputag tag v)) c config); try done.
    + unfold started. cbn. by rewrite !insert_insert_eq.
    + cbn. apply lookup_insert_eq.
    + cbn. by rewrite !lookup_insert_ne.
Qed.

Lemma configure_then_start_delegating_witness :
  (vme_device.static_use_owner_spaces 2%positive;;
   vme_device.static_set_cputag 2%positive "cpu2";;
   vme_device.device_start 2%positive)
    (Machine (sample_heap (sample_bus true None None) 32)
       (<[(1%positive, "cpu2") := 4%positive]> ∅) 1%positive [])
  = Ret tt (Machine
      (sample_heap
         (VmeDevice "VME" "vme" "vme" (Some 1%positive) 0 (Some 3%positive)
            (AddressSpaceConfig "VME A32" ENDIANNESS_BIG 32 32 0 None)
            false "cpu2" (Some 4%positive) (Some 5%positive) (Some 32)
            (SimpleList None None 0)) 32)
      (<[(1%positive, "cpu2") := 4%positive]> ∅) 1%positive []).
Proof.
  destruct (configure_then_start_delegating
              (Machine (sample_heap (sample_bus true None None) 32)
                 (<[(1%positive, "cpu2") := 4%positive]> ∅) 1%positive [])
              2%positive 1%positive 4%positive 5%positive (sample_bus true None None)
              (CpuDevice (Some 5%positive)
                 (Some (AddressSpaceConfig "program" ENDIANNESS_BIG 32 32 0 None)))
              (AddressSpaceConfig "program" ENDIANNESS_BIG 32 32 0 None) "cpu2")
    as [Hrun _].
  - reflexivity.
  - reflexivity.
  - reflexivity.
  - reflexivity.
  - reflexivity.
  - reflexivity.
  - rewrite Hrun. vm_compute. reflexivity.
Defined.

(** X18: start-up twice is start-up once: device_start of a bus that owns
    its space resolves the same space and width again and leaves the
    machine of the first start-up. *)
Theorem device_start_twice_own_space (m : running_machine) (this sp : ptr) (v : vme_device)
    (a : address_space) :
  heap m !! this = Some (obj_vme_device v) →
  m_allocspaces v = true →
  m_addrspace v = Some sp →
  heap m !! sp = Some (obj_address_space a) →
  (vme_device.device_start this;; vme_device.device_start this) m
  = vme_device.device_start this m.
Proof.
  intros Hthis Halloc Haddr Hsp. assert (this ≠ sp) as Hne by congruence.
  rewrite (device_start_own_Ret _ _ _ _ _ Hthis Halloc Haddr Hsp).
  rewrite (bind_Ret _ _ _ _ _ (device_start_own_Ret _ _ _ _ _ Hthis Halloc Haddr Hsp)).
  set (m1 := Machine _ _ _ _).
  rewrite (device_start_own_Ret m1 this sp
             (with_m_prgwidth (Some (as_data_width a)) (with_m_prgspace (Some sp) v)) a);
    try done.
  - unfold m1. cbn. by rewrite insert_insert_eq.
  - cbn. apply lookup_insert_eq.
  - cbn. by rewrite lookup_insert_ne.
Qed.

Lemma device_start_twice_own_space_witness :
  (vme_device.device_start 2%positive;; vme_device.device_start 2%positive)
    (sample_machine (sample_bus true None None) 32)
  = vme_device.device_start 2%positive (sample_machine (sample_bus true None None) 32).
Proof.
  apply (device_start_twice_own_space (sample_machine (sample_bus true None None) 32)
           2%positive 3%positive (sample_bus true None None) (AddressSpace 32 []));
    reflexivity.
Defined.

Section frame.
Context (p : ptr) (o : object) (o_not_card : as_vme_card o = None).

#[local] Instance keeps_object_refl : Reflexive (keeps_object p o).
Proof. intros m Hp. exact Hp. Qed.

#[local] Instance keeps_object_trans : Transitive (keeps_object p o).
Proof. intros m1 m2 m3 H12 H23 Hp. by apply H23, H12. Qed.





End frame.

#[local] Instance evolves_any_change_refl : Reflexive (evolves any_change no_object) :=
  evolves_refl _ _ (λ _, I).
#[local] Instance evolves_any_change_trans : Transitive (evolves any_change no_object) :=
  evolves_trans _ _ (λ _ _ _ _ _, I) (no_object_ok _).



